(* ===== verification/_CoqProject ===== *)
-Q . S2P
Prelude.v
Base64.v
Utf8.v
Normalizer.v
Gateway.v
GatewaySpec.v
App.v
Page.v
Session.v
