(* ===== verification/Prelude.v ===== *)
(** * A verification development for the Ollama multimodal demo ([src/app.py])

    ** The program

    [src/app.py] is a Streamlit script.  Every user interaction re-runs the
    script from the top; the part with behaviour is

    - the Content Normalizer: [image_to_base64] (lines 9-12) re-encodes a
      PIL image as JPEG and base64-encodes the bytes into a [str];
      [extract_text_from_pdf] (lines 15-20) concatenates the text of every
      page of a PDF, a page without text contributing [""];
    - the Response Gateway: [get_ollama_response] (lines 55-79) probes the
      Ollama server with [ollama.list()], then either sends the prompt alone
      ([ollama.generate]), or the prompt followed by the first 2000
      characters of the PDF text ([ollama.generate]), or the prompt and the
      base64 image ([ollama.chat]); it returns the answer and a preview
      (the first 500 characters of the PDF text, with ["..."] when longer,
      or the decoded image).  One [try]/[except Exception] turns every
      failure into ["Error: <str(e)>. Is Ollama running on
      127.0.0.1:11434?"] with no preview;
    - the script body (lines 82-93): when the button is pressed, or live
      preview is on and the prompt is non-empty, it calls the gateway and
      renders the answer and, when the preview is truthy, the PDF text or
      the image;
    - the page (lines 22-53 and 95-97): page config, title, sidebar with
      the instructions and the live-preview checkbox, two columns with the
      prompt, the uploader and the response slot ([st.empty()]), the
      button, and the footer.

    The Ollama server, Pillow, PyPDF2 and Streamlit are collaborators the
    script only calls.

    ** Layout of the development

    - [Prelude] (this file): Python strings as lists of code points
      ([pystr], [lit], slicing [py_slice_to]), Python exceptions ([exn]),
      the result type of a call that may raise ([result]) and a small
      state-and-exception monad [PyM] with [try]/[except] ([try_except]),
      the notation scope [py_scope], the hint database [pyrw] and the
      integer lemmas the byte-level components share.
    - [Base64]: [base64.b64encode] as binascii's bit-buffer loop
      ([b2a_base64], a 32-bit [leftchar] and [leftbits]) and as the
      group-of-three encoder ([b64encode]), proved equal; a reference
      decoder ([b64decode]); the round trip, length and alphabet theorems.
    - [Utf8]: [bytes.decode("utf-8")] as a strict UTF-8 decoder
      ([utf8_decode]), and the fact that it never fails on ASCII bytes,
      which is what makes [.decode("utf-8")] on line 12 safe.
    - [Normalizer]: the interfaces of Pillow and PyPDF2 as type classes
      ([ImageLib], [PdfLib]); Pillow's JPEG writer mode check
      ([image_save_jpeg]); [image_to_base64]; [extract_text_from_pdf] as the
      accumulator loop of the source, and its equivalence with a reference
      concatenation.
    - [Gateway]: the Ollama client interface ([OllamaServer]) whose replies
      may depend on the history of calls; the calls a run makes are recorded
      as a trace in the state of [PyM]; [get_ollama_response] branch by
      branch with its theorems.
    - [GatewaySpec]: the contract of the gateway as an inductive relation
      ([gateway_spec]) over histories and tagged outcomes ([Answered] or
      [Failed] with the error kinds of the spec), with the prompt, preview
      and payload given by properties; [render] is the current policy of
      collapsing a failure into one string.
    - [App]: one run of the script body ([script_run]): trigger condition,
      gateway call and what is rendered; a session of runs.
    - [Page]: the whole script as one program over the server history and
      the Streamlit page ([app_script]): containers, the slot of
      [st.empty()], the spinner, the rule that [set_page_config] comes
      first, and the relation of the page to [script_run].
    - [Session]: Streamlit's reruns as a state machine: the widget values
      kept between runs ([widgets]), the user's interactions ([event],
      [apply_event]), one interaction and its rerun ([handle]), the states
      reachable from a page load ([reachable]), and the extension filter of
      [st.file_uploader(type=[...])] ([file_allowed]).

    ** What the theorems show (claim ids of the manifest)

    - Gateway ([Gateway]): the exact calls and result of each branch, errors
      included (C1 text only, C2 PDF, C3 image); a failing probe stops
      everything and yields the error string for every input (C4); the PDF
      text is cut at 2000 characters (C5) and previewed at 500 with ["..."]
      (C6); an image Pillow decodes but cannot write as JPEG yields the
      error string that blames the server (C10); the probe comes first and
      at most one model call follows (C12); against a stateless server a
      run is independent of what came before, so identical requests get
      identical answers (C13); the function never raises (C14); a server
      that is down and a model that answers with the error text produce the
      same pair (C25); the image a [chat] call carries decodes to the JPEG
      bytes of the decoded upload (C27).
    - Normalizer: the base64 payload decodes to the JPEG bytes (C7);
      [image_to_base64] is [b64encode] of what [image.save] writes, and its
      [.decode("utf-8")] never fails (C11); modes without a JPEG raw mode
      raise [OSError] (C20); the page loop is the in-order concatenation of
      the pages' texts (C9); a PDF without text gives [""] (C15).
    - Base64: round trip (C8), length [4 * ceil(n/3)] (C21), printable
      ASCII output (C22); binascii's bit-buffer loop, with its 32-bit
      [leftchar], computes the group encoder (C26).  UTF-8: ASCII bytes
      decode to themselves (C23), decoded code points are Unicode scalar
      values (C24).
    - App: an untriggered run calls and renders nothing (C16); a PDF with
      text is rendered as answer, ["**PDF Preview:**"] and the preview
      (C17), an image as answer and the decoded image (C36); an empty PDF
      text gets no preview at all (C18); over a session the server is
      probed once per triggered run (C19); against a server that refuses
      connections until it has been probed [k] times, [k + 1] presses of
      the button end with the model's answer on screen (C29, liveness).
    - Contract ([GatewaySpec]): every run of [get_ollama_response] is a
      run the contract allows, rendered (C28, refinement).
    - Page ([Page]): a rerun never raises, makes the calls of [script_run]
      and builds the fixed chrome with [script_run]'s elements in place
      (C30); the answer fills the slot in the "AI Response" column while
      the preview goes to the main area below the button (C31).
    - Session ([Session]): by induction on [reachable], with live preview
      on and a non-empty prompt every reached state shows an answer (C32);
      a rerun without click and with live preview off calls nothing and
      erases the answer (C33); ticking live preview on a fresh page sends
      the default prompt to the model (C34); with live preview off the
      server is probed once per click, over any interactions (C35).

    ** What modelling showed

    - An RGBA/LA/P/PA image (a PNG with transparency or a palette) decodes
      but [image.save(format="JPEG")] raises [OSError], so such uploads
      never reach the model (C10, C20), contrary to the spec's round trip.
    - Every failure, Pillow's and PyPDF2's included, is reported as "Is
      Ollama running on 127.0.0.1:11434?", even after a successful probe
      (C10).
    - The preview of a PDF without text is [""], which [if extra_content:]
      treats as false: nothing is shown (C18).
    - An exception of one page's [extract_text()] aborts the request (C9).
    - Errors are plain strings: a failure and an answer that reads like the
      error string cannot be told apart (C25).
    - The preview is rendered in the main area under the button, outside
      the "AI Response" column where the answer is (C31).
    - With live preview off, touching any widget after an answer erases it
      (C33); ticking live preview sends the placeholder prompt ["Tell me
      about this content..."] before the user typed anything (C34).

    ** Interfaces and instances

    [ImageLib], [PdfLib] and [OllamaServer] are type classes; the theorems
    are proved for every instance.  Concrete instances (toy image and PDF
    formats, an echo server, a server that is down) live in the
    [Examples] modules of [Normalizer] and [Gateway]; the example lemmas
    instantiate the theorems on them and evaluate with [vm_compute].

    ** Modelling choices

    Python [str] is a list of Unicode code points ([list Z]); literals of the
    source are ASCII and are injected with [lit].  Bytes are [Z] in
    [0, 256); binascii's [unsigned int] buffer keeps its 32-bit wrap-around
    ([push_byte]).  Every loop is structural except binascii's inner
    [while (leftbits >= 6)], which gets the fuel [leftbits]: each iteration
    removes six bits, so [leftbits / 6 < leftbits] iterations suffice, and
    the equality with the group encoder (C26) holds with this fuel.  The
    server, Pillow's decoder and encoder and PyPDF2's parser are abstract (type-class parameters): the
    theorems hold for every implementation of them.  The page is the list
    of the elements the script creates, each with its container and the
    arguments of its call; a widget returns the user's value, taken from
    [App.ui_input]; a rerun starts from the empty page (Streamlit clears it
    between runs).  [set_page_config] follows Streamlit's documented rule
    for the releases this code targets (those with [st.image]'s
    [use_column_width]): first command of the run, once.  In [Page]
    the widget values of a run are an input; [Session] keeps them across
    reruns: the button is [True] only in the run its click starts, and a
    prompt commit that does not change the text or a refused file starts
    no rerun (the browser refuses the file before upload).

    ** Not modelled

    - The Ollama server, Pillow's decoder and JPEG encoder, and PyPDF2's
      parser are libraries the script only calls; they are type-class
      parameters ([OllamaServer], [ImageLib], [PdfLib]) and every theorem
      holds for all of their implementations.  Of Pillow, only the checks
      [image.save(format="JPEG")] makes before encoding are modelled.
    - The MIME type the browser reports for an upload ([file.type], line
      59) is an input: nothing ties it to the file name the filter checks.
    - [str.lower()] is modelled on ASCII letters; no other character
      lower-cases to a letter of the four extensions, so the filter's
      decisions on them are the same.
    - Streamlit's rendering, styling and the spinner's animation; the
      imports (lines 1-6) and comments. *)

From Stdlib Require Import String Ascii List ZArith Lia Bool.
Import ListNotations.

(** ** Python strings *)

(** A Python [str] is a sequence of Unicode code points. *)
Definition pystr := list Z.

(** A string literal of the source (all of them are ASCII). *)
Definition lit (s : string) : pystr :=
  map (fun a => Z.of_nat (nat_of_ascii a)) (list_ascii_of_string s).

(** [len(s)] *)
Definition py_len (s : pystr) : nat := length s.

(** [s[:n]] for [n >= 0]. *)
Definition py_slice_to (s : pystr) (n : nat) : pystr := firstn n s.

(** Truthiness of a [str]: non-empty. *)
Definition py_truthy_str (s : pystr) : bool :=
  match s with [] => false | _ => true end.

(** [s == t] on [str]. *)
Definition pystr_eqb (s t : pystr) : bool :=
  if list_eq_dec Z.eq_dec s t then true else false.

(** ** Python exceptions and fallible calls *)

(** An exception: its class name and [str(e)]. *)
Record exn := mk_exn { exn_type : string; exn_str : pystr }.

(** The outcome of a call that may raise. *)
Inductive result (A : Type) : Type :=
| Ok (a : A)
| Err (e : exn).
Arguments Ok {A} a.
Arguments Err {A} e.

Definition result_bind {A B} (r : result A) (k : A -> result B) : result B :=
  match r with Ok a => k a | Err e => Err e end.

Definition result_map {A B} (f : A -> B) (r : result A) : result B :=
  match r with Ok a => Ok (f a) | Err e => Err e end.

(** Run fallible calls in order, stopping at the first exception. *)
Fixpoint all_ok {A} (rs : list (result A)) : result (list A) :=
  match rs with
  | [] => Ok []
  | r :: rest => result_bind r (fun a => result_map (cons a) (all_ok rest))
  end.

(** ** A state and exception monad

    [PyM S A] threads a state [S] (what the code observably does, e.g. the
    calls sent to a server) and ends in a value or an exception. *)
Definition PyM (S A : Type) : Type := S -> S * result A.

Section PyMonad.
Context {S : Type}.

Definition ret {A} (a : A) : PyM S A := fun s => (s, Ok a).

Definition bind {A B} (m : PyM S A) (k : A -> PyM S B) : PyM S B :=
  fun s => match m s with
           | (s', Ok a) => k a s'
           | (s', Err e) => (s', Err e)
           end.

Definition raise {A} (e : exn) : PyM S A := fun s => (s, Err e).

(** A call that does not touch the state and may raise. *)
Definition lift {A} (r : result A) : PyM S A := fun s => (s, r).

(** [try: body except Exception as e: handler(e)] *)
Definition try_except {A} (body : PyM S A) (handler : exn -> PyM S A) : PyM S A :=
  fun s => match body s with
           | (s', Ok a) => (s', Ok a)
           | (s', Err e) => handler e s'
           end.
End PyMonad.

Declare Scope py_scope.
Delimit Scope py_scope with py.
Notation "x <- m ;; k" := (bind m (fun x => k))
  (at level 61, m at next level, right associativity) : py_scope.
Notation "m ;; k" := (bind m (fun _ => k))
  (at level 61, right associativity) : py_scope.

(** ** Lemmas on the monad *)

Section PyMonadLemmas.
Context {S : Type}.

Lemma bind_ret_l {A B} (a : A) (k : A -> PyM S B) s :
  bind (ret a) k s = k a s.
Proof. reflexivity. Qed.

Lemma bind_lift_ok {A B} (a : A) (k : A -> PyM S B) s :
  bind (lift (Ok a)) k s = k a s.
Proof. reflexivity. Qed.

Lemma bind_lift_err {A B} e (k : A -> PyM S B) s :
  bind (lift (Err e)) k s = (s, Err e).
Proof. reflexivity. Qed.

Lemma bind_raise {A B} e (k : A -> PyM S B) s :
  bind (raise e) k s = (s, Err e).
Proof. reflexivity. Qed.

Lemma bind_assoc {A B C} (m : PyM S A) (k : A -> PyM S B) (h : B -> PyM S C) s :
  bind (bind m k) h s = bind m (fun a => bind (k a) h) s.
Proof. unfold bind. destruct (m s) as [s' [a|e]]; reflexivity. Qed.

(** A [try] whose handler never raises never raises. *)
Lemma try_except_total {A} (body : PyM S A) handler s :
  (forall e s', exists a, snd (handler e s') = Ok a) ->
  exists a, snd (try_except body handler s) = Ok a.
Proof.
  intros H. unfold try_except. destruct (body s) as [s' [a|e]]; simpl; eauto.
Qed.
End PyMonadLemmas.

Create Rewrite HintDb pyrw.
#[export] Hint Rewrite @bind_ret_l @bind_lift_ok @bind_lift_err @bind_raise : pyrw.

(** ** Lemmas on strings *)

Lemma pystr_eqb_spec (s t : pystr) : reflect (s = t) (pystr_eqb s t).
Proof.
  unfold pystr_eqb. destruct (list_eq_dec Z.eq_dec s t); constructor; assumption.
Qed.

Lemma length_lit (s : string) : length (lit s) = String.length s.
Proof. unfold lit. rewrite length_map. induction s; simpl; congruence. Qed.

Lemma lit_append (s t : string) : lit (s ++ t) = lit s ++ lit t.
Proof. unfold lit. induction s; simpl; [reflexivity|]. now rewrite IHs. Qed.

Lemma py_slice_to_short (s : pystr) n : py_len s <= n -> py_slice_to s n = s.
Proof. apply firstn_all2. Qed.

Lemma py_len_slice_to (s : pystr) n : py_len (py_slice_to s n) = Nat.min n (py_len s).
Proof. apply length_firstn. Qed.

Lemma py_slice_to_prefix (s : pystr) n : exists rest, s = py_slice_to s n ++ rest.
Proof. exists (skipn n s). symmetry. apply firstn_skipn. Qed.

#[export] Hint Resolve py_slice_to_short : core.

(** ** Integer lemmas for the byte-level code *)

Open Scope Z_scope.

Lemma testbit_small b k i : 0 <= k -> 0 <= b < 2 ^ k -> k <= i -> Z.testbit b i = false.
Proof.
  intros Hk Hb Hi. rewrite <- (Z.mod_small b (2 ^ k)) by lia.
  apply Z.mod_pow2_bits_high. lia.
Qed.

(** [(a << k) | b] is [a * 2^k + b] when [b] fits in [k] bits. *)
Lemma lor_shiftl_add a b k : 0 <= k -> 0 <= b < 2 ^ k ->
  Z.lor (Z.shiftl a k) b = a * 2 ^ k + b.
Proof.
  intros Hk Hb. rewrite <- Z.shiftl_mul_pow2 by lia.
  assert (Z.land (Z.shiftl a k) b = 0) as H0.
  { apply Z.bits_inj'. intros i Hi. rewrite Z.land_spec, Z.bits_0.
    destruct (Z.lt_ge_cases i k).
    - rewrite Z.shiftl_spec_low by lia. reflexivity.
    - rewrite (testbit_small b k i) by lia. apply Bool.andb_false_r. }
  rewrite <- Z.lxor_lor, Z.add_nocarry_lxor by exact H0. reflexivity.
Qed.

Lemma land_low_mask a n : 0 <= n -> Z.land a (2 ^ n - 1) = a mod 2 ^ n.
Proof.
  intros. rewrite <- Z.land_ones by lia. unfold Z.ones. rewrite Z.shiftl_1_l. f_equal.
Qed.

Lemma land_3 a : Z.land a 3 = a mod 4.
Proof. apply (land_low_mask a 2). lia. Qed.
Lemma land_7 a : Z.land a 7 = a mod 8.
Proof. apply (land_low_mask a 3). lia. Qed.
Lemma land_31 a : Z.land a 31 = a mod 32.
Proof. apply (land_low_mask a 5). lia. Qed.
Lemma land_15 a : Z.land a 15 = a mod 16.
Proof. apply (land_low_mask a 4). lia. Qed.
Lemma land_63 a : Z.land a 63 = a mod 64.
Proof. apply (land_low_mask a 6). lia. Qed.
Lemma land_uint32 a : Z.land a 4294967295 = a mod 2 ^ 32.
Proof. apply (land_low_mask a 32). lia. Qed.
Lemma shiftr_div a k : 0 <= k -> Z.shiftr a k = a / 2 ^ k.
Proof. apply Z.shiftr_div_pow2. Qed.

Create Rewrite HintDb zbits.
#[export] Hint Rewrite land_3 land_7 land_15 land_31 land_63 land_uint32 : zbits.
#[export] Hint Rewrite shiftr_div using lia : zbits.

(** Turn shifts and masks by constants into division and remainder, and a
    disjoint [lor] into a sum, then decide with [lia]. *)
Ltac lor_innermost :=
  match goal with
  | |- context [Z.lor (Z.shiftl ?a ?k) ?b] =>
      lazymatch b with context [Z.lor _ _] => fail | _ => idtac end;
      lazymatch a with context [Z.lor _ _] => fail | _ => idtac end;
      rewrite (lor_shiftl_add a b k)
        by (rewrite ?Z.shiftl_mul_pow2 by lia; cbn; Z.div_mod_to_equations; lia)
  end.

Ltac zbits_arith :=
  autorewrite with zbits;
  repeat lor_innermost;
  rewrite ?Z.shiftl_mul_pow2 by lia;
  cbn [Z.pow Z.pow_pos Pos.iter Z.mul Pos.mul];
  Z.div_mod_to_equations; lia.

Close Scope Z_scope.
