(* ===== verification/Base64.v ===== *)
(** Base64: [base64.b64encode], called on line 12 of [src/app.py].

    [b64encode] follows binascii's [b2a_base64]: whole 3-byte groups give
    four characters of [table_b2a_base64]; a trailing group of one or two
    bytes gives two or three characters and [=] padding.  [b64decode] is the
    RFC 4648 decoder a consumer of the payload applies; it is the reference
    against which the round trip is stated. *)

From Stdlib Require Import String List ZArith Lia.
From S2P Require Import Prelude.
Import ListNotations.
Local Open Scope Z_scope.
Local Open Scope bool_scope.

Module B64.

(** ** Data *)

(** A byte string: each element in [0, 256). *)
Definition bytes := list Z.

Definition byte_ok (b : Z) : Prop := 0 <= b < 256.
Definition bytes_ok (bs : bytes) : Prop := Forall byte_ok bs.

(** [table_b2a_base64] of binascii. *)
Definition table_b2a_base64 : list Z :=
  lit "ABCDEFGHIJKLMNOPQRSTUVWXYZabcdefghijklmnopqrstuvwxyz0123456789+/".

Definition BASE64_PAD : Z := 61. (* '=' *)

Definition enc (i : Z) : Z := nth (Z.to_nat i) table_b2a_base64 0.

(** ** Encoder *)

Fixpoint b64encode (bs : bytes) : bytes :=
  match bs with
  | b0 :: b1 :: b2 :: rest =>
      enc (Z.shiftr b0 2)
      :: enc (Z.lor (Z.shiftl (Z.land b0 3) 4) (Z.shiftr b1 4))
      :: enc (Z.lor (Z.shiftl (Z.land b1 15) 2) (Z.shiftr b2 6))
      :: enc (Z.land b2 63)
      :: b64encode rest
  | [b0; b1] =>
      [enc (Z.shiftr b0 2);
       enc (Z.lor (Z.shiftl (Z.land b0 3) 4) (Z.shiftr b1 4));
       enc (Z.shiftl (Z.land b1 15) 2);
       BASE64_PAD]
  | [b0] =>
      [enc (Z.shiftr b0 2); enc (Z.shiftl (Z.land b0 3) 4); BASE64_PAD; BASE64_PAD]
  | [] => []
  end.

(** ** Reference decoder *)

(** The inverse of [table_b2a_base64]. *)
Definition dec (c : Z) : option Z :=
  if (65 <=? c) && (c <=? 90) then Some (c - 65)
  else if (97 <=? c) && (c <=? 122) then Some (c - 71)
  else if (48 <=? c) && (c <=? 57) then Some (c + 4)
  else if c =? 43 then Some 62
  else if c =? 47 then Some 63
  else None.

Definition dec_b0 (a0 a1 : Z) : Z := Z.lor (Z.shiftl a0 2) (Z.shiftr a1 4).
Definition dec_b1 (a1 a2 : Z) : Z := Z.lor (Z.shiftl (Z.land a1 15) 4) (Z.shiftr a2 2).
Definition dec_b2 (a2 a3 : Z) : Z := Z.lor (Z.shiftl (Z.land a2 3) 6) a3.

Fixpoint b64decode (cs : bytes) : option bytes :=
  match cs with
  | [] => Some []
  | c0 :: c1 :: c2 :: c3 :: rest =>
      match dec c0, dec c1 with
      | Some a0, Some a1 =>
          if c2 =? BASE64_PAD then
            if (c3 =? BASE64_PAD) && (match rest with [] => true | _ => false end)
            then Some [dec_b0 a0 a1] else None
          else
            match dec c2 with
            | None => None
            | Some a2 =>
                if c3 =? BASE64_PAD then
                  match rest with
                  | [] => Some [dec_b0 a0 a1; dec_b1 a1 a2]
                  | _ => None
                  end
                else
                  match dec c3, b64decode rest with
                  | Some a3, Some tl => Some (dec_b0 a0 a1 :: dec_b1 a1 a2 :: dec_b2 a2 a3 :: tl)
                  | _, _ => None
                  end
            end
      | _, _ => None
      end
  | _ => None
  end.

(** ** binascii's loop

    [b2a_base64] as CPython's [binascii] writes it: a bit buffer
    [leftchar] (a C [unsigned int], 32 bits) holds [leftbits] pending bits;
    each input byte is shifted in, and [while (leftbits >= 6)] one
    character is emitted from the top six pending bits.  At the end two or
    four pending bits give a last character and the padding. *)

(** [leftchar = (leftchar << 8) | *bin_data] on a 32-bit [unsigned int]. *)
Definition push_byte (leftchar b : Z) : Z :=
  Z.land (Z.lor (Z.shiftl leftchar 8) b) 4294967295.

(** [while (leftbits >= 6) { this_ch = (leftchar >> (leftbits-6)) & 0x3f;
    leftbits -= 6; *ascii_data++ = table_b2a_base64[this_ch]; }], with a
    bound [fuel] on the iterations. *)
Fixpoint emit_sextets (fuel : nat) (leftchar leftbits : Z) : list Z * Z :=
  match fuel with
  | O => ([], leftbits)
  | S fuel' =>
      if 6 <=? leftbits then
        let this_ch := Z.land (Z.shiftr leftchar (leftbits - 6)) 63 in
        let (out, lb) := emit_sextets fuel' leftchar (leftbits - 6) in
        (enc this_ch :: out, lb)
      else ([], leftbits)
  end.

(** [for ( ; bin_len > 0 ; bin_len--, bin_data++ )]: returns the output,
    [leftchar] and [leftbits]. *)
Fixpoint b2a_loop (bs : bytes) (leftchar leftbits : Z) : bytes * Z * Z :=
  match bs with
  | [] => ([], leftchar, leftbits)
  | b :: rest =>
      let leftchar' := push_byte leftchar b in
      let leftbits' := leftbits + 8 in
      let (out1, lb) := emit_sextets (Z.to_nat leftbits') leftchar' leftbits' in
      let '(out2, lc, lb2) := b2a_loop rest leftchar' lb in
      (out1 ++ out2, lc, lb2)
  end.

(** [if (leftbits == 2) ... else if (leftbits == 4) ...] *)
Definition b2a_tail (leftchar leftbits : Z) : bytes :=
  if leftbits =? 2 then [enc (Z.shiftl (Z.land leftchar 3) 4); BASE64_PAD; BASE64_PAD]
  else if leftbits =? 4 then [enc (Z.shiftl (Z.land leftchar 15) 2); BASE64_PAD]
  else [].

Definition b2a_from (bs : bytes) (leftchar leftbits : Z) : bytes :=
  let '(out, lc, lb) := b2a_loop bs leftchar leftbits in out ++ b2a_tail lc lb.

(** [binascii.b2a_base64(s, newline=False)], which [base64.b64encode] calls. *)
Definition b2a_base64 (bs : bytes) : bytes := b2a_from bs 0 0.

(** ** Lemmas *)

Definition sextet_ok (i : Z) : Prop := 0 <= i < 64.

(** A boolean property checked on the 64 indices holds of every sextet. *)
Lemma forall_sextets (f : Z -> bool) :
  forallb f (map Z.of_nat (seq 0 64)) = true -> forall i, sextet_ok i -> f i = true.
Proof.
  intros H i Hi. rewrite forallb_forall in H. apply H. rewrite in_map_iff.
  exists (Z.to_nat i). rewrite in_seq. unfold sextet_ok in Hi. split; lia.
Qed.

(** The table is a bijection onto the alphabet. *)
Lemma dec_enc i : sextet_ok i -> dec (enc i) = Some i.
Proof.
  intros Hi.
  pose proof (forall_sextets
    (fun i => match dec (enc i) with Some j => j =? i | None => false end)
    ltac:(vm_compute; reflexivity) i Hi) as H.
  cbv beta in H. destruct (dec (enc i)); [f_equal; apply Z.eqb_eq|]; easy.
Qed.

(** Every character of the table is printable ASCII. *)
Lemma enc_ascii i : sextet_ok i -> 32 < enc i < 127.
Proof.
  intros Hi.
  pose proof (forall_sextets (fun i => (32 <? enc i) && (enc i <? 127))
    ltac:(vm_compute; reflexivity) i Hi) as H.
  cbv beta in H. rewrite Bool.andb_true_iff, !Z.ltb_lt in H. exact H.
Qed.

Lemma enc_not_pad i : sextet_ok i -> (enc i =? BASE64_PAD) = false.
Proof.
  intros Hi. destruct (Z.eqb_spec (enc i) BASE64_PAD) as [E|]; [|reflexivity].
  pose proof (dec_enc i Hi) as D. rewrite E in D. discriminate.
Qed.

Ltac quantum_tac :=
  intros; unfold byte_ok, sextet_ok, dec_b0, dec_b1, dec_b2 in *; zbits_arith.

(** The four sextets of a group, and of a trailing group, are indices of the
    table. *)
Lemma sextet0_ok b0 : byte_ok b0 -> sextet_ok (Z.shiftr b0 2).
Proof. quantum_tac. Qed.
Lemma sextet1_ok b0 b1 : byte_ok b0 -> byte_ok b1 ->
  sextet_ok (Z.lor (Z.shiftl (Z.land b0 3) 4) (Z.shiftr b1 4)).
Proof. quantum_tac. Qed.
Lemma sextet2_ok b1 b2 : byte_ok b1 -> byte_ok b2 ->
  sextet_ok (Z.lor (Z.shiftl (Z.land b1 15) 2) (Z.shiftr b2 6)).
Proof. quantum_tac. Qed.
Lemma sextet3_ok b2 : byte_ok b2 -> sextet_ok (Z.land b2 63).
Proof. quantum_tac. Qed.
Lemma sextet1_tail_ok b0 : byte_ok b0 -> sextet_ok (Z.shiftl (Z.land b0 3) 4).
Proof. quantum_tac. Qed.
Lemma sextet2_tail_ok b1 : byte_ok b1 -> sextet_ok (Z.shiftl (Z.land b1 15) 2).
Proof. quantum_tac. Qed.

(** Decoding a group's sextets gives back its bytes. *)
Lemma dec_b0_quantum b0 b1 : byte_ok b0 -> byte_ok b1 ->
  dec_b0 (Z.shiftr b0 2) (Z.lor (Z.shiftl (Z.land b0 3) 4) (Z.shiftr b1 4)) = b0.
Proof. quantum_tac. Qed.
Lemma dec_b1_quantum b0 b1 b2 : byte_ok b0 -> byte_ok b1 -> byte_ok b2 ->
  dec_b1 (Z.lor (Z.shiftl (Z.land b0 3) 4) (Z.shiftr b1 4))
         (Z.lor (Z.shiftl (Z.land b1 15) 2) (Z.shiftr b2 6)) = b1.
Proof. quantum_tac. Qed.
Lemma dec_b2_quantum b1 b2 : byte_ok b1 -> byte_ok b2 ->
  dec_b2 (Z.lor (Z.shiftl (Z.land b1 15) 2) (Z.shiftr b2 6)) (Z.land b2 63) = b2.
Proof. quantum_tac. Qed.
Lemma dec_b0_tail b0 : byte_ok b0 ->
  dec_b0 (Z.shiftr b0 2) (Z.shiftl (Z.land b0 3) 4) = b0.
Proof. quantum_tac. Qed.
Lemma dec_b1_tail b0 b1 : byte_ok b0 -> byte_ok b1 ->
  dec_b1 (Z.lor (Z.shiftl (Z.land b0 3) 4) (Z.shiftr b1 4)) (Z.shiftl (Z.land b1 15) 2) = b1.
Proof. quantum_tac. Qed.

(** Induction following the groups of three. *)
Lemma list3_ind (P : list Z -> Prop) :
  P [] -> (forall b0, P [b0]) -> (forall b0 b1, P [b0; b1]) ->
  (forall b0 b1 b2 rest, P rest -> P (b0 :: b1 :: b2 :: rest)) ->
  forall l, P l.
Proof.
  intros H0 H1 H2 H3. fix IH 1. intros [|b0 [|b1 [|b2 rest]]];
    [exact H0 | apply H1 | apply H2 | apply H3, IH].
Qed.

(** *** The bit buffer of binascii *)

Lemma push_byte_eq lc b : byte_ok b -> push_byte lc b = (lc * 256 + b) mod 2 ^ 32.
Proof.
  unfold byte_ok, push_byte. intros. rewrite land_uint32, lor_shiftl_add by lia. reflexivity.
Qed.

Ltac buffer_tac := intros; rewrite ?push_byte_eq by assumption; unfold byte_ok in *; zbits_arith.

(** The characters the loop emits are those of the group encoder: the
    pending bits of the buffer are the low bits of the last bytes. *)
Lemma buffer_sextet0 lc b0 : byte_ok b0 ->
  Z.land (Z.shiftr (push_byte lc b0) 2) 63 = Z.shiftr b0 2.
Proof. buffer_tac. Qed.
Lemma buffer_sextet1 lc b0 b1 : byte_ok b0 -> byte_ok b1 ->
  Z.land (Z.shiftr (push_byte (push_byte lc b0) b1) 4) 63
  = Z.lor (Z.shiftl (Z.land b0 3) 4) (Z.shiftr b1 4).
Proof. buffer_tac. Qed.
Lemma buffer_sextet2 lc b0 b1 b2 : byte_ok b0 -> byte_ok b1 -> byte_ok b2 ->
  Z.land (Z.shiftr (push_byte (push_byte (push_byte lc b0) b1) b2) 6) 63
  = Z.lor (Z.shiftl (Z.land b1 15) 2) (Z.shiftr b2 6).
Proof. buffer_tac. Qed.
Lemma buffer_sextet3 lc b0 b1 b2 : byte_ok b0 -> byte_ok b1 -> byte_ok b2 ->
  Z.land (Z.shiftr (push_byte (push_byte (push_byte lc b0) b1) b2) 0) 63 = Z.land b2 63.
Proof. buffer_tac. Qed.
Lemma buffer_tail1 lc b0 : byte_ok b0 ->
  Z.shiftl (Z.land (push_byte lc b0) 3) 4 = Z.shiftl (Z.land b0 3) 4.
Proof. buffer_tac. Qed.
Lemma buffer_tail2 lc b0 b1 : byte_ok b0 -> byte_ok b1 ->
  Z.shiftl (Z.land (push_byte (push_byte lc b0) b1) 15) 2 = Z.shiftl (Z.land b1 15) 2.
Proof. buffer_tac. Qed.

Create HintDb b64.
#[export] Hint Resolve sextet0_ok sextet1_ok sextet2_ok sextet3_ok
  sextet1_tail_ok sextet2_tail_ok : b64.

Ltac b64_step :=
  rewrite ?dec_enc, ?enc_not_pad by eauto with b64.

(** ** Theorems *)

Lemma b64_roundtrip (bs : bytes) :
  bytes_ok bs -> b64decode (b64encode bs) = Some bs.
Proof.
  unfold bytes_ok. induction bs as [|b0|b0 b1|b0 b1 b2 rest IH] using list3_ind;
    intros Hok; rewrite ?Forall_cons_iff in Hok; cbn [b64encode b64decode];
    repeat match goal with H : _ /\ _ |- _ => destruct H end; b64_step;
    rewrite ?Z.eqb_refl; cbn -[dec_b0 dec_b1 dec_b2 Z.shiftr Z.shiftl Z.land Z.lor].
  - reflexivity.
  - now rewrite dec_b0_tail.
  - now rewrite dec_b0_quantum, dec_b1_tail.
  - rewrite IH by assumption.
    now rewrite dec_b0_quantum, dec_b1_quantum, dec_b2_quantum.
Qed.

(** C21: the output has [4 * ceil(n / 3)] characters. *)
Theorem length_b64encode (bs : bytes) :
  length (b64encode bs) = (4 * ((length bs + 2) / 3))%nat.
Proof.
  induction bs as [|b0|b0 b1|b0 b1 b2 rest IH] using list3_ind; try reflexivity.
  cbn [b64encode length]. rewrite IH.
  replace (S (S (S (length rest))) + 2)%nat with ((length rest + 2) + 1 * 3)%nat by lia.
  rewrite Nat.div_add by lia. lia.
Qed.

(** Every output byte is a character of the table or the pad [=]. *)
Lemma b64encode_alphabet (bs : bytes) :
  bytes_ok bs ->
  Forall (fun c => c = BASE64_PAD \/ exists i, sextet_ok i /\ c = enc i) (b64encode bs).
Proof.
  unfold bytes_ok. induction bs as [|b0|b0 b1|b0 b1 b2 rest IH] using list3_ind;
    intros Hok; rewrite ?Forall_cons_iff in Hok;
    repeat match goal with H : _ /\ _ |- _ => destruct H end;
    cbn [b64encode];
    repeat (apply Forall_cons;
            [solve [left; reflexivity
                   | right; eexists; split; [|reflexivity]; eauto with b64] |]);
    auto.
Qed.

Lemma b64encode_printable (bs : bytes) :
  bytes_ok bs -> Forall (fun c => 32 < c < 127) (b64encode bs).
Proof.
  intros Hok. eapply Forall_impl; [|exact (b64encode_alphabet bs Hok)].
  intros c [->|[i [Hi ->]]]; [unfold BASE64_PAD; lia | now apply enc_ascii].
Qed.

Ltac run_b2a :=
  cbn -[push_byte enc Z.shiftr Z.land Z.lor Z.shiftl];
  cbv [PosDef.Pos.to_nat PosDef.Pos.iter_op].

(** The loop from an empty buffer computes the group encoder. *)
Lemma b2a_from_empty_buffer (bs : bytes) :
  bytes_ok bs -> forall lc, b2a_from bs lc 0 = b64encode bs.
Proof.
  unfold bytes_ok. induction bs as [|b0|b0 b1|b0 b1 b2 rest IH] using list3_ind;
    intros Hok lc; rewrite ?Forall_cons_iff in Hok;
    repeat match goal with H : _ /\ _ |- _ => destruct H end;
    unfold b2a_from; do 4 run_b2a.
  - reflexivity.
  - rewrite buffer_sextet0, buffer_tail1 by assumption. reflexivity.
  - rewrite buffer_sextet0, buffer_sextet1, buffer_tail2 by assumption. reflexivity.
  - specialize (IH ltac:(assumption) (push_byte (push_byte (push_byte lc b0) b1) b2)).
    unfold b2a_from in IH.
    destruct (b2a_loop rest _ 0) as [[o lc'] lb']. run_b2a. rewrite <- IH.
    rewrite buffer_sextet0, buffer_sextet1, buffer_sextet2, buffer_sextet3 by assumption.
    reflexivity.
Qed.

(** C26: binascii's bit-buffer loop computes the group encoder [b64encode]. *)
Theorem b2a_base64_b64encode (bs : bytes) :
  bytes_ok bs -> b2a_base64 bs = b64encode bs.
Proof. intros H. apply b2a_from_empty_buffer, H. Qed.

(** C8: decoding what [b64encode] produced gives back the bytes. *)
Theorem b64decode_b64encode (bs : bytes) :
  bytes_ok bs -> b64decode (b64encode bs) = Some bs.
Proof. apply b64_roundtrip. Qed.

(** C22: every output byte is printable ASCII, so the text is ASCII. *)
Theorem b64encode_ascii (bs : bytes) :
  bytes_ok bs -> Forall (fun c => 32 < c < 127) (b64encode bs).
Proof. apply b64encode_printable. Qed.

Lemma b64decode_b64encode_witness :
  B64.bytes_ok [77; 97]%Z /\ b64decode (b64encode [77; 97]%Z) = Some [77; 97]%Z.
Proof.
  assert (H : bytes_ok [77; 97]%Z) by (repeat constructor; unfold byte_ok; lia).
  split; [exact H | exact (b64decode_b64encode _ H)].
Defined.

Lemma b64encode_ascii_witness :
  Forall (fun c => 32 < c < 127) (b64encode [0; 255; 128]%Z).
Proof.
  apply b64encode_ascii. repeat constructor; unfold byte_ok; lia.
Defined.

Lemma b2a_base64_b64encode_witness :
  b2a_base64 [77; 97; 110; 255]%Z = b64encode [77; 97; 110; 255]%Z.
Proof. apply b2a_base64_b64encode. repeat constructor; unfold byte_ok; lia. Defined.

End B64.
