(* ===== verification/Utf8.v ===== *)
(** UTF-8: [bytes.decode("utf-8")], called on line 12 of [src/app.py].

    [utf8_decode] is the strict decoder of CPython (errors="strict"): it
    accepts the well-formed sequences of the Unicode standard (Table 3-7:
    no overlong forms, no surrogates, nothing above U+10FFFF) and fails on
    anything else, where Python raises [UnicodeDecodeError]. *)

From Stdlib Require Import List ZArith Lia Bool.
From S2P Require Import Prelude.
Import ListNotations.
Local Open Scope Z_scope.
Local Open Scope bool_scope.

Module Utf8.

Definition in_range (b lo hi : Z) : bool := (lo <=? b) && (b <=? hi).

(** A continuation byte [10xxxxxx]. *)
Definition is_cont (b : Z) : bool := in_range b 128 191.

(** The allowed range of the second byte of a 3-byte sequence. *)
Definition second3 (b0 b1 : Z) : bool :=
  if b0 =? 224 then in_range b1 160 191
  else if b0 =? 237 then in_range b1 128 159
  else is_cont b1.

(** The allowed range of the second byte of a 4-byte sequence. *)
Definition second4 (b0 b1 : Z) : bool :=
  if b0 =? 240 then in_range b1 144 191
  else if b0 =? 244 then in_range b1 128 143
  else is_cont b1.

Definition cp2 (b0 b1 : Z) : Z := Z.lor (Z.shiftl (Z.land b0 31) 6) (Z.land b1 63).
Definition cp3 (b0 b1 b2 : Z) : Z :=
  Z.lor (Z.shiftl (Z.land b0 15) 12) (Z.lor (Z.shiftl (Z.land b1 63) 6) (Z.land b2 63)).
Definition cp4 (b0 b1 b2 b3 : Z) : Z :=
  Z.lor (Z.shiftl (Z.land b0 7) 18)
    (Z.lor (Z.shiftl (Z.land b1 63) 12) (Z.lor (Z.shiftl (Z.land b2 63) 6) (Z.land b3 63))).

Fixpoint utf8_decode (bs : list Z) : option pystr :=
  match bs with
  | [] => Some []
  | b0 :: rest =>
      if in_range b0 0 127 then option_map (cons b0) (utf8_decode rest)
      else if in_range b0 194 223 then
        match rest with
        | b1 :: rest' =>
            if is_cont b1 then option_map (cons (cp2 b0 b1)) (utf8_decode rest') else None
        | [] => None
        end
      else if in_range b0 224 239 then
        match rest with
        | b1 :: b2 :: rest' =>
            if second3 b0 b1 && is_cont b2
            then option_map (cons (cp3 b0 b1 b2)) (utf8_decode rest') else None
        | _ => None
        end
      else if in_range b0 240 244 then
        match rest with
        | b1 :: b2 :: b3 :: rest' =>
            if second4 b0 b1 && is_cont b2 && is_cont b3
            then option_map (cons (cp4 b0 b1 b2 b3)) (utf8_decode rest') else None
        | _ => None
        end
      else None
  end.

(** A Unicode scalar value: a code point that is not a surrogate. *)
Definition scalar_ok (c : Z) : Prop := (0 <= c < 55296) \/ (57343 < c <= 1114111).

(** ** Theorems *)

Lemma utf8_ascii_id (bs : list Z) :
  Forall (fun b => 0 <= b < 128) bs -> utf8_decode bs = Some bs.
Proof.
  induction 1 as [|b bs Hb _ IH]; [reflexivity|].
  cbn [utf8_decode]. unfold in_range.
  replace ((0 <=? b) && (b <=? 127)) with true by (symmetry; apply andb_true_iff; lia).
  now rewrite IH.
Qed.

Ltac range_to_Z :=
  unfold second3, second4, is_cont, in_range in *;
  repeat match goal with
         | H : context [?a =? ?b] |- _ => destruct (Z.eqb_spec a b); subst
         end;
  repeat match goal with
         | H : _ && _ = true |- _ => apply andb_true_iff in H; destruct H
         | H : (_ <=? _) = true |- _ => apply Z.leb_le in H
         end.

Lemma cp2_scalar b0 b1 :
  in_range b0 194 223 = true -> is_cont b1 = true -> 128 <= cp2 b0 b1 /\ scalar_ok (cp2 b0 b1).
Proof. intros. range_to_Z. unfold cp2, scalar_ok. zbits_arith. Qed.

Lemma cp3_scalar b0 b1 b2 :
  in_range b0 224 239 = true -> second3 b0 b1 = true -> is_cont b2 = true ->
  2048 <= cp3 b0 b1 b2 /\ scalar_ok (cp3 b0 b1 b2).
Proof. intros. range_to_Z; unfold cp3, scalar_ok; zbits_arith. Qed.

Lemma cp4_scalar b0 b1 b2 b3 :
  in_range b0 240 244 = true -> second4 b0 b1 = true -> is_cont b2 = true ->
  is_cont b3 = true -> 65536 <= cp4 b0 b1 b2 b3 /\ scalar_ok (cp4 b0 b1 b2 b3).
Proof. intros. range_to_Z; unfold cp4, scalar_ok; zbits_arith. Qed.

Lemma Forall_option_map_cons {A} (P : A -> Prop) x (o : option (list A)) l :
  option_map (cons x) o = Some l -> P x ->
  (forall l', o = Some l' -> Forall P l') -> Forall P l.
Proof. destruct o as [l'|]; simpl; intros E Hx H; inversion E; subst; auto. Qed.

(** C24: every code point the decoder produces is a Unicode scalar value. *)
Theorem utf8_decode_scalar (bs : list Z) (cs : pystr) :
  Forall (fun b => 0 <= b < 256) bs ->
  utf8_decode bs = Some cs -> Forall scalar_ok cs.
Proof.
  intros Hbs. remember (length bs) as n eqn:En. assert (length bs <= n)%nat as Hn by lia.
  clear En. revert bs cs Hbs Hn. induction n as [|n IH]; intros bs cs Hbs Hn Hd.
  - destruct bs; [injection Hd as <-; constructor | simpl in Hn; lia].
  - destruct bs as [|b0 rest]; [injection Hd as <-; constructor|].
    inversion Hbs as [|? ? Hb0 Hrest]; subst. simpl in Hn.
    cbn [utf8_decode] in Hd.
    destruct (in_range b0 0 127) eqn:R1.
    { eapply Forall_option_map_cons; [exact Hd| |intros; eapply IH; eauto; lia].
      range_to_Z. unfold scalar_ok. lia. }
    destruct (in_range b0 194 223) eqn:R2.
    { destruct rest as [|b1 rest']; [discriminate|].
      destruct (is_cont b1) eqn:C1; [|discriminate].
      inversion Hrest; subst.
      eapply Forall_option_map_cons; [exact Hd| apply cp2_scalar; auto
                                     |intros; eapply IH; eauto; simpl in Hn; lia]. }
    destruct (in_range b0 224 239) eqn:R3.
    { destruct rest as [|b1 [|b2 rest']]; try discriminate.
      destruct (second3 b0 b1) eqn:C1; [|discriminate].
      destruct (is_cont b2) eqn:C2; [|discriminate].
      inversion Hrest as [|? ? _ Hrest2]; inversion Hrest2; subst.
      eapply Forall_option_map_cons; [exact Hd| apply cp3_scalar; auto
                                     |intros; eapply IH; eauto; simpl in Hn; lia]. }
    destruct (in_range b0 240 244) eqn:R4; [|discriminate].
    destruct rest as [|b1 [|b2 [|b3 rest']]]; try discriminate.
    destruct (second4 b0 b1) eqn:C1; [|discriminate].
    destruct (is_cont b2) eqn:C2; [|discriminate].
    destruct (is_cont b3) eqn:C3; [|discriminate].
    inversion Hrest as [|? ? _ Hrest2]; inversion Hrest2 as [|? ? _ Hrest3];
      inversion Hrest3; subst.
    eapply Forall_option_map_cons; [exact Hd| apply cp4_scalar; auto
                                   |intros; eapply IH; eauto; simpl in Hn; lia].
Qed.

(** C23: decoding ASCII bytes never fails and maps each byte to the code
    point of the same value. *)
Theorem utf8_decode_ascii (bs : list Z) :
  Forall (fun b => 0 <= b < 128) bs -> utf8_decode bs = Some bs.
Proof. apply utf8_ascii_id. Qed.

Lemma utf8_decode_ascii_witness :
  utf8_decode [72; 105]%Z = Some [72; 105]%Z.
Proof. apply utf8_decode_ascii. repeat constructor; lia. Defined.

Lemma utf8_decode_scalar_witness :
  utf8_decode [226; 130; 172]%Z = Some [8364]%Z /\ Forall scalar_ok [8364]%Z.
Proof.
  split; [vm_compute; reflexivity|].
  apply (utf8_decode_scalar [226; 130; 172]%Z); [repeat constructor; lia | vm_compute; reflexivity].
Defined.

End Utf8.
