(* ===== verification/Normalizer.v ===== *)
(** Content Normalizer: [image_to_base64] and [extract_text_from_pdf]
    ([src/app.py], lines 9-20), and the uploaded file they read.

    Pillow and PyPDF2 are abstract: [ImageLib] is what the code uses of a
    PIL image ([Image.open], the mode and size, [load], the JPEG encoder's
    output), [PdfLib] what it uses of a [PdfReader] (its pages, each page's
    [extract_text()]).  [image_save_jpeg] spells out what
    [image.save(buffered, format="JPEG")] does with those: load the pixels,
    refuse an empty image, refuse a mode the JPEG writer has no raw mode for
    (Pillow's [JpegImagePlugin.RAWMODE]), otherwise write the encoder's
    bytes. *)

From Stdlib Require Import String List ZArith Lia Bool.
From S2P Require Import Prelude Base64 Utf8.
Import ListNotations.

Module Normalizer.

(** ** Uploaded files *)

(** Streamlit's [UploadedFile]: name, declared MIME type ([file.type]) and
    content. *)
Record uploaded_file := mk_file {
  uf_name : pystr;
  uf_type : pystr;
  uf_data : list Z
}.

(** ** Pillow *)

(** The modes of a PIL image. *)
Inductive mode :=
| Mode1 | ModeL | ModeP | ModeRGB | ModeRGBA | ModeRGBX | ModeCMYK | ModeYCbCr
| ModeLA | ModePA | ModeI | ModeF | ModeLAB | ModeHSV | ModeI16.

Definition mode_name (m : mode) : pystr :=
  lit match m with
      | Mode1 => "1" | ModeL => "L" | ModeP => "P" | ModeRGB => "RGB"
      | ModeRGBA => "RGBA" | ModeRGBX => "RGBX" | ModeCMYK => "CMYK"
      | ModeYCbCr => "YCbCr" | ModeLA => "LA" | ModePA => "PA" | ModeI => "I"
      | ModeF => "F" | ModeLAB => "LAB" | ModeHSV => "HSV" | ModeI16 => "I;16"
      end.

(** [JpegImagePlugin.RAWMODE]: the modes the JPEG writer accepts, with the
    raw mode it feeds the encoder. *)
Definition RAWMODE (m : mode) : option string :=
  match m with
  | Mode1 => Some "L"%string
  | ModeL => Some "L"%string
  | ModeRGB => Some "RGB"%string
  | ModeRGBX => Some "RGB"%string
  | ModeCMYK => Some "CMYK;I"%string
  | ModeYCbCr => Some "YCbCr"%string
  | _ => None
  end.

Class ImageLib := {
  image : Type;
  (** [PIL.Image.open(fp)]: identifies the format and reads the header. *)
  Image_open : list Z -> result image;
  im_mode : image -> mode;
  im_width : image -> Z;
  im_height : image -> Z;
  (** [Image.load()]: decodes the pixel data (raises on a truncated or
      corrupt file). *)
  im_load : image -> result unit;
  (** The bytes the JPEG encoder writes for an image it accepts. *)
  jpeg_encode : image -> list Z;
  jpeg_encode_bytes : forall im, B64.bytes_ok (jpeg_encode im)
}.

(** ** PyPDF2 *)

Class PdfLib := {
  pdf_page : Type;
  (** [PyPDF2.PdfReader(f).pages] *)
  PdfReader_pages : list Z -> result (list pdf_page);
  (** [page.extract_text()]: [None] or a [str]. *)
  extract_text : pdf_page -> result (option pystr)
}.

Definition value_error (msg : string) : exn := mk_exn "ValueError" (lit msg).
Definition os_error (msg : pystr) : exn := mk_exn "OSError" msg.
Definition unicode_decode_error : exn :=
  mk_exn "UnicodeDecodeError" (lit "'utf-8' codec can't decode bytes").

(** ** Image path *)

Section Image.
Context `{IL : ImageLib}.

(** [image.save(buffered, format="JPEG")] followed by
    [buffered.getvalue()] on a fresh [BytesIO]. *)
Definition image_save_jpeg (im : image) : result (list Z) :=
  result_bind (im_load im) (fun _ =>
    if (im_width im =? 0)%Z || (im_height im =? 0)%Z then
      Err (value_error "cannot write empty image as JPEG")
    else
      match RAWMODE (im_mode im) with
      | None => Err (os_error (lit "cannot write mode " ++ mode_name (im_mode im)
                                ++ lit " as JPEG"))
      | Some _ => Ok (jpeg_encode im)
      end).

(** [base64.b64encode(...).decode("utf-8")] *)
Definition b64_to_str (bs : list Z) : result pystr :=
  match Utf8.utf8_decode (B64.b64encode bs) with
  | Some s => Ok s
  | None => Err unicode_decode_error
  end.

(** Lines 9-12. *)
Definition image_to_base64 (im : image) : result pystr :=
  result_bind (image_save_jpeg im) b64_to_str.
End Image.

(** ** PDF path *)

(** [x or ""] for the value of [page.extract_text()]. *)
Definition or_empty (t : option pystr) : pystr :=
  match t with
  | Some s => if py_truthy_str s then s else lit ""
  | None => lit ""
  end.

Section Pdf.
Context `{PL : PdfLib}.

(** [for page in pdf_reader.pages: text += page.extract_text() or ""] *)
Fixpoint extract_loop (pages : list pdf_page) (text : pystr) : result pystr :=
  match pages with
  | [] => Ok text
  | page :: rest =>
      result_bind (extract_text page) (fun t => extract_loop rest (text ++ or_empty t))
  end.

(** Lines 15-20. *)
Definition extract_text_from_pdf (f : uploaded_file) : result pystr :=
  result_bind (PdfReader_pages (uf_data f)) (fun pages => extract_loop pages (lit "")).
End Pdf.

(** ** Lemmas *)

Section ImageLemmas.
Context `{IL : ImageLib}.

(** The UTF-8 decode of a base64 payload never fails. *)
Lemma b64_to_str_ok bs : B64.bytes_ok bs -> b64_to_str bs = Ok (B64.b64encode bs).
Proof.
  intros Hbs. unfold b64_to_str. rewrite Utf8.utf8_ascii_id; [reflexivity|].
  eapply Forall_impl; [|exact (B64.b64encode_printable bs Hbs)]. simpl. lia.
Qed.

Lemma image_save_jpeg_ok im bs : image_save_jpeg im = Ok bs -> bs = jpeg_encode im.
Proof.
  unfold image_save_jpeg. destruct (im_load im); simpl; [|discriminate].
  destruct (_ || _); [discriminate|]. destruct (RAWMODE _); congruence.
Qed.

(** [image_to_base64] in terms of [image_save_jpeg]. *)
Lemma image_to_base64_eq im :
  image_to_base64 im = result_map B64.b64encode (image_save_jpeg im).
Proof.
  unfold image_to_base64. destruct (image_save_jpeg im) as [bs|e] eqn:E; [|reflexivity].
  simpl. apply image_save_jpeg_ok in E. subst. apply b64_to_str_ok, jpeg_encode_bytes.
Qed.

(** C7: the payload sent to the model decodes to exactly the JPEG bytes
    Pillow wrote. *)
Theorem image_to_base64_roundtrip im s :
  image_to_base64 im = Ok s -> B64.b64decode s = Some (jpeg_encode im).
Proof.
  rewrite image_to_base64_eq. destruct (image_save_jpeg im) as [bs|e] eqn:E;
    simpl; [|discriminate].
  intros H. injection H as <-. apply image_save_jpeg_ok in E. subst.
  apply B64.b64_roundtrip, jpeg_encode_bytes.
Qed.

(** C11: [image_to_base64] is the base64 text of the JPEG bytes when Pillow
    writes the image, and raises Pillow's exception otherwise; the
    [.decode("utf-8")] never raises. *)
Theorem image_to_base64_spec im :
  image_to_base64 im = result_map B64.b64encode (image_save_jpeg im).
Proof. apply image_to_base64_eq. Qed.

(** C20: an image whose mode has no JPEG raw mode (RGBA and P, the modes of
    PNG files with transparency or a palette) is refused with Pillow's
    [OSError], even though it decoded. *)
Theorem image_to_base64_mode_error im :
  im_load im = Ok tt -> im_width im <> 0%Z -> im_height im <> 0%Z ->
  RAWMODE (im_mode im) = None ->
  image_to_base64 im =
    Err (os_error (lit "cannot write mode " ++ mode_name (im_mode im) ++ lit " as JPEG")).
Proof.
  intros Hl Hw Hh Hm. unfold image_to_base64, image_save_jpeg. rewrite Hl. simpl.
  apply Z.eqb_neq in Hw, Hh. rewrite Hw, Hh, Hm. reflexivity.
Qed.
End ImageLemmas.

Section PdfLemmas.
Context `{PL : PdfLib}.

Lemma or_empty_text t : or_empty (Some t) = t.
Proof. destruct t; reflexivity. Qed.

(** C9: the page loop computes the in-order concatenation of the pages'
    texts ([None] as [""]), or raises the first page's exception. *)
Theorem extract_loop_concat pages acc :
  extract_loop pages acc =
    result_map (fun ts => acc ++ concat (map or_empty ts)) (all_ok (map extract_text pages)).
Proof.
  revert acc. induction pages as [|p rest IH]; intros acc; simpl.
  - now rewrite app_nil_r.
  - destruct (extract_text p) as [t|e]; simpl; [|reflexivity].
    rewrite IH. destruct (all_ok (map extract_text rest)); simpl; [|reflexivity].
    now rewrite app_assoc.
Qed.

Lemma extract_loop_no_text pages acc :
  (forall p, In p pages -> extract_text p = Ok None \/ extract_text p = Ok (Some [])) ->
  extract_loop pages acc = Ok acc.
Proof.
  revert acc. induction pages as [|p rest IH]; intros acc Hp; [reflexivity|]. simpl.
  destruct (Hp p (or_introl eq_refl)) as [E|E]; rewrite E; simpl;
    rewrite app_nil_r; apply IH; intros; apply Hp; right; assumption.
Qed.

(** C15: a PDF none of whose pages has text (a scanned PDF) gives [""],
    not an error. *)
Theorem extract_text_from_pdf_no_text f pages :
  PdfReader_pages (uf_data f) = Ok pages ->
  (forall p, In p pages -> extract_text p = Ok None \/ extract_text p = Ok (Some [])) ->
  extract_text_from_pdf f = Ok [].
Proof.
  intros Hr Hp. unfold extract_text_from_pdf. rewrite Hr. apply extract_loop_no_text, Hp.
Qed.
End PdfLemmas.

(** ** Concrete libraries for the examples

    A toy image format: [tag; width; height; pixels...], tag 0/1/2/3 for
    RGB/RGBA/P/L; an image without pixels is truncated.  A toy PDF:
    [37 ('%'); b1; ...], each [b] a page whose text is [None] when [b = 0]
    and the one-character [str] [b] otherwise. *)
Module Examples.
Record toy_image := mk_toy { t_mode : mode; t_w : Z; t_h : Z; t_px : list Z }.

Definition toy_open (bs : list Z) : result toy_image :=
  match bs with
  | tag :: w :: h :: px =>
      match tag with
      | 0%Z => Ok (mk_toy ModeRGB w h px)
      | 1%Z => Ok (mk_toy ModeRGBA w h px)
      | 2%Z => Ok (mk_toy ModeP w h px)
      | 3%Z => Ok (mk_toy ModeL w h px)
      | _ => Err (mk_exn "UnidentifiedImageError" (lit "cannot identify image file"))
      end
  | _ => Err (mk_exn "UnidentifiedImageError" (lit "cannot identify image file"))
  end.

Definition toy_load (im : toy_image) : result unit :=
  match t_px im with
  | [] => Err (os_error (lit "image file is truncated"))
  | _ => Ok tt
  end.

Lemma toy_encode_bytes (im : toy_image) : B64.bytes_ok (map (fun z => Z.modulo z 256) (t_px im)).
Proof.
  apply Forall_forall. intros b Hb. apply in_map_iff in Hb as [z [<- _]].
  unfold B64.byte_ok. apply Z.mod_pos_bound. lia.
Qed.

Definition toy_images : ImageLib := {|
  image := toy_image;
  Image_open := toy_open;
  im_mode := t_mode;
  im_width := t_w;
  im_height := t_h;
  im_load := toy_load;
  jpeg_encode := fun im => map (fun z => Z.modulo z 256) (t_px im);
  jpeg_encode_bytes := toy_encode_bytes
|}.

Definition toy_page (b : Z) : result (option pystr) :=
  if (b =? 0)%Z then Ok None else Ok (Some [b mod 128]%Z).

Definition toy_pdfs : PdfLib := {|
  pdf_page := Z;
  PdfReader_pages := fun bs =>
    match bs with
    | 37%Z :: pages => Ok pages
    | _ => Err (mk_exn "PdfReadError" (lit "EOF marker not found"))
    end;
  extract_text := toy_page
|}.
End Examples.

Import Examples.

(** Examples. *)

Lemma image_to_base64_roundtrip_witness :
  @image_to_base64 toy_images (mk_toy ModeRGB 1 1 [1; 2; 3; 4]%Z) = Ok (lit "AQIDBA==") /\
  B64.b64decode (lit "AQIDBA==") = Some [1; 2; 3; 4]%Z.
Proof.
  split; [vm_compute; reflexivity|].
  exact (@image_to_base64_roundtrip toy_images (mk_toy ModeRGB 1 1 [1; 2; 3; 4]%Z) _
           ltac:(vm_compute; reflexivity)).
Defined.

Lemma image_to_base64_mode_error_witness :
  @image_to_base64 toy_images (mk_toy ModeRGBA 2 2 [255]%Z)
  = Err (os_error (lit "cannot write mode RGBA as JPEG")).
Proof.
  exact (@image_to_base64_mode_error toy_images (mk_toy ModeRGBA 2 2 [255]%Z)
           eq_refl ltac:(simpl; lia) ltac:(simpl; lia) eq_refl).
Defined.

Lemma extract_text_from_pdf_no_text_witness :
  @extract_text_from_pdf toy_pdfs (mk_file (lit "scan.pdf") (lit "application/pdf") [37; 0; 0]%Z)
  = Ok [].
Proof.
  apply (@extract_text_from_pdf_no_text toy_pdfs
           (mk_file (lit "scan.pdf") (lit "application/pdf") [37; 0; 0]%Z) [0; 0]%Z eq_refl).
  intros p [<-|[<-|[]]]; left; reflexivity.
Defined.

End Normalizer.
