(* ===== verification/Gateway.v ===== *)
(** Response Gateway: [get_ollama_response] ([src/app.py], lines 55-79).

    The Ollama client is the interface [OllamaServer]: [ollama.list()],
    [ollama.generate(model, prompt)] and [ollama.chat(model, messages)].
    Each reply may depend on every call made before it (a real server is
    not a pure function), so each method receives the history.  The
    computation runs in [PyM] with the trace of calls as its state: a call
    is recorded when it is issued, whether or not it then raises. *)

From Stdlib Require Import String Ascii List ZArith Lia Bool.
From S2P Require Import Prelude Base64 Utf8 Normalizer.
Import ListNotations.
Import Normalizer.

Module Gateway.

(** ** The Ollama client *)

(** [{"role": ..., "content": ..., "images": [...]}] *)
Record message := mk_message {
  msg_role : pystr;
  msg_content : pystr;
  msg_images : list pystr
}.

Inductive ollama_call :=
| CallList
| CallGenerate (model prompt : pystr)
| CallChat (model : pystr) (messages : list message).

(** The fields the code reads: [response["response"]] of a generate reply,
    [response["message"]["content"]] of a chat reply. *)
Record generate_response := mk_generate_response { gr_response : pystr }.
Record chat_response := mk_chat_response { cr_message : message }.

Definition trace := list ollama_call.

Class OllamaServer := {
  srv_list : trace -> result unit;
  srv_generate : trace -> pystr -> pystr -> result generate_response;
  srv_chat : trace -> pystr -> list message -> result chat_response
}.

(** ** The gateway *)

Section Gateway.
Context `{IL : ImageLib} `{PL : PdfLib} `{SV : OllamaServer}.

Local Open Scope py_scope.

Definition GM (A : Type) := PyM trace A.

Definition issue {A} (c : ollama_call) (reply : trace -> result A) : GM A :=
  fun tr => (tr ++ [c], reply tr).

(** [ollama.list()] *)
Definition ollama_list : GM unit := issue CallList srv_list.

(** [ollama.generate(model=..., prompt=...)] *)
Definition ollama_generate (model prompt : pystr) : GM generate_response :=
  issue (CallGenerate model prompt) (fun tr => srv_generate tr model prompt).

(** [ollama.chat(model=..., messages=...)] *)
Definition ollama_chat (model : pystr) (msgs : list message) : GM chat_response :=
  issue (CallChat model msgs) (fun tr => srv_chat tr model msgs).

(** The preview artifact: a [str] or a PIL image. *)
Inductive extra :=
| ExtraText (s : pystr)
| ExtraImage (im : image).

Definition llava : pystr := lit "llava".
Definition newline : pystr := [10%Z].

(** [f"{text}\n\nPDF Content:\n{pdf_text[:2000]}"] *)
Definition pdf_header : pystr := newline ++ newline ++ lit "PDF Content:" ++ newline.
Definition pdf_prompt (text pdf_text : pystr) : pystr :=
  text ++ pdf_header ++ py_slice_to pdf_text 2000.

(** [pdf_text[:500] + "..." if len(pdf_text) > 500 else pdf_text] *)
Definition pdf_preview (pdf_text : pystr) : pystr :=
  if Nat.ltb 500 (py_len pdf_text) then py_slice_to pdf_text 500 ++ lit "..."
  else pdf_text.

(** [f"Error: {str(e)}. Is Ollama running on 127.0.0.1:11434?"] *)
Definition error_message (e : exn) : pystr :=
  lit "Error: " ++ exn_str e ++ lit ". Is Ollama running on 127.0.0.1:11434?".

Definition is_pdf (f : uploaded_file) : bool := pystr_eqb (uf_type f) (lit "application/pdf").

(** Lines 60-66. *)
Definition pdf_branch (text : pystr) (f : uploaded_file) : GM (pystr * option extra) :=
  pdf_text <- lift (extract_text_from_pdf f) ;;
  response <- ollama_generate llava (pdf_prompt text pdf_text) ;;
  ret (gr_response response, Some (ExtraText (pdf_preview pdf_text))).

(** Lines 67-74. *)
Definition image_branch (text : pystr) (f : uploaded_file) : GM (pystr * option extra) :=
  image <- lift (Image_open (uf_data f)) ;;
  img_base64 <- lift (image_to_base64 image) ;;
  response <- ollama_chat llava [mk_message (lit "user") text [img_base64]] ;;
  ret (msg_content (cr_message response), Some (ExtraImage image)).

(** Lines 75-77. *)
Definition text_branch (text : pystr) : GM (pystr * option extra) :=
  response <- ollama_generate llava text ;;
  ret (gr_response response, None).

(** Lines 55-79. *)
Definition get_ollama_response (text : pystr) (file : option uploaded_file)
  : GM (pystr * option extra) :=
  try_except
    (ollama_list ;;
     match file with
     | Some f => if is_pdf f then pdf_branch text f else image_branch text f
     | None => text_branch text
     end)
    (fun e => ret (error_message e, None)).
End Gateway.

(** ** Theorems *)

Ltac run_gm :=
  unfold get_ollama_response, pdf_branch, image_branch, text_branch,
    ollama_list, ollama_generate, ollama_chat, issue, try_except, bind, ret, lift;
  cbn beta iota.

Section Theorems.
Context `{IL : ImageLib} `{PL : PdfLib} `{SV : OllamaServer}.

(** The run of the gateway without a file. *)
Lemma gor_text_eq text tr :
  get_ollama_response text None tr =
    let tr1 := tr ++ [CallList] in
    match srv_list tr with
    | Err e => (tr1, Ok (error_message e, None))
    | Ok _ =>
        let tr2 := tr1 ++ [CallGenerate llava text] in
        match srv_generate tr1 llava text with
        | Ok r => (tr2, Ok (gr_response r, None))
        | Err e => (tr2, Ok (error_message e, None))
        end
    end.
Proof.
  run_gm. destruct (srv_list tr); [|reflexivity].
  destruct (srv_generate _ _ _); reflexivity.
Qed.

(** The run of the gateway on a PDF. *)
Lemma gor_pdf_eq text f tr :
  is_pdf f = true ->
  get_ollama_response text (Some f) tr =
    let tr1 := tr ++ [CallList] in
    match srv_list tr with
    | Err e => (tr1, Ok (error_message e, None))
    | Ok _ =>
        match extract_text_from_pdf f with
        | Err e => (tr1, Ok (error_message e, None))
        | Ok pdf_text =>
            let p := pdf_prompt text pdf_text in
            let tr2 := tr1 ++ [CallGenerate llava p] in
            match srv_generate tr1 llava p with
            | Ok r => (tr2, Ok (gr_response r, Some (ExtraText (pdf_preview pdf_text))))
            | Err e => (tr2, Ok (error_message e, None))
            end
        end
    end.
Proof.
  intros Hpdf. run_gm. rewrite Hpdf. destruct (srv_list tr); [|reflexivity].
  destruct (extract_text_from_pdf f); [|reflexivity].
  destruct (srv_generate _ _ _); reflexivity.
Qed.

(** The run of the gateway on an image. *)
Lemma gor_image_eq text f tr :
  is_pdf f = false ->
  get_ollama_response text (Some f) tr =
    let tr1 := tr ++ [CallList] in
    match srv_list tr with
    | Err e => (tr1, Ok (error_message e, None))
    | Ok _ =>
        match Image_open (uf_data f) with
        | Err e => (tr1, Ok (error_message e, None))
        | Ok im =>
            match image_save_jpeg im with
            | Err e => (tr1, Ok (error_message e, None))
            | Ok jpeg =>
                let m := [mk_message (lit "user") text [B64.b64encode jpeg]] in
                let tr2 := tr1 ++ [CallChat llava m] in
                match srv_chat tr1 llava m with
                | Ok r => (tr2, Ok (msg_content (cr_message r), Some (ExtraImage im)))
                | Err e => (tr2, Ok (error_message e, None))
                end
            end
        end
    end.
Proof.
  intros Hpdf. run_gm. rewrite Hpdf. destruct (srv_list tr); [|reflexivity].
  destruct (Image_open (uf_data f)) as [im|e]; [|reflexivity].
  rewrite image_to_base64_eq. destruct (image_save_jpeg im); [|reflexivity].
  cbn. destruct (srv_chat _ _ _); reflexivity.
Qed.

(** C1: without a file, the gateway probes the server, sends the prompt
    alone in one [generate] call and returns the reply's text unchanged
    with no preview; a failure of either call gives the error string. *)
Theorem get_ollama_response_text text tr :
  get_ollama_response text None tr =
    let tr1 := tr ++ [CallList] in
    match srv_list tr with
    | Err e => (tr1, Ok (error_message e, None))
    | Ok _ =>
        let tr2 := tr1 ++ [CallGenerate llava text] in
        match srv_generate tr1 llava text with
        | Ok r => (tr2, Ok (gr_response r, None))
        | Err e => (tr2, Ok (error_message e, None))
        end
    end.
Proof. apply gor_text_eq. Qed.

(** C2: with a PDF, the gateway probes the server, extracts the text,
    sends one [generate] call with [pdf_prompt] and returns the reply's
    text with the text preview; each failure gives the error string and
    no preview. *)
Theorem get_ollama_response_pdf text f tr :
  is_pdf f = true ->
  get_ollama_response text (Some f) tr =
    let tr1 := tr ++ [CallList] in
    match srv_list tr with
    | Err e => (tr1, Ok (error_message e, None))
    | Ok _ =>
        match extract_text_from_pdf f with
        | Err e => (tr1, Ok (error_message e, None))
        | Ok pdf_text =>
            let p := pdf_prompt text pdf_text in
            let tr2 := tr1 ++ [CallGenerate llava p] in
            match srv_generate tr1 llava p with
            | Ok r => (tr2, Ok (gr_response r, Some (ExtraText (pdf_preview pdf_text))))
            | Err e => (tr2, Ok (error_message e, None))
            end
        end
    end.
Proof. apply gor_pdf_eq. Qed.

(** C3: with an image, the gateway probes the server, decodes the image,
    re-encodes it as JPEG, sends one [chat] call with one user message
    carrying the prompt and the base64 of the JPEG bytes, and returns the
    reply's content with the image; each failure (Pillow's included) gives
    the error string, no preview and no [chat] call. *)
Theorem get_ollama_response_image text f tr :
  is_pdf f = false ->
  get_ollama_response text (Some f) tr =
    let tr1 := tr ++ [CallList] in
    match srv_list tr with
    | Err e => (tr1, Ok (error_message e, None))
    | Ok _ =>
        match Image_open (uf_data f) with
        | Err e => (tr1, Ok (error_message e, None))
        | Ok im =>
            match image_save_jpeg im with
            | Err e => (tr1, Ok (error_message e, None))
            | Ok jpeg =>
                let m := [mk_message (lit "user") text [B64.b64encode jpeg]] in
                let tr2 := tr1 ++ [CallChat llava m] in
                match srv_chat tr1 llava m with
                | Ok r => (tr2, Ok (msg_content (cr_message r), Some (ExtraImage im)))
                | Err e => (tr2, Ok (error_message e, None))
                end
            end
        end
    end.
Proof. apply gor_image_eq. Qed.

(** C4: when the liveness probe fails, the gateway makes no other call
    and returns the error string and no preview, for every kind of input. *)
Theorem get_ollama_response_probe_fails text file tr e :
  srv_list tr = Err e ->
  get_ollama_response text file tr = (tr ++ [CallList], Ok (error_message e, None)).
Proof. intros H. run_gm. rewrite H. reflexivity. Qed.

(** C14: the gateway never raises: the [try]/[except] catches everything. *)
Theorem get_ollama_response_total text file tr :
  exists r, snd (get_ollama_response text file tr) = Ok r.
Proof.
  apply try_except_total. intros e s'. exists (error_message e, None). reflexivity.
Qed.

Ltac case_replies :=
  repeat match goal with
         | |- context [match ?x with Ok _ => _ | Err _ => _ end] => destruct x
         end.

(** Every run appends the probe and at most one model call, and returns. *)
Lemma gor_run_shape text file tr :
  exists calls r, get_ollama_response text file tr = (tr ++ CallList :: calls, Ok r) /\
    (calls = [] \/ (exists p, calls = [CallGenerate llava p])
                \/ (exists ms, calls = [CallChat llava ms])).
Proof.
  destruct file as [f|]; [destruct (is_pdf f) eqn:Hp|];
    [rewrite (gor_pdf_eq text f tr Hp) | rewrite (gor_image_eq text f tr Hp)
    | rewrite gor_text_eq];
    cbv zeta; case_replies;
    do 2 eexists; (split; [rewrite <- ?app_assoc; reflexivity | eauto 6]).
Qed.

(** C12: one run issues the probe first and at most one model call after
    it, a [generate] or a [chat] on [llava]. *)
Theorem get_ollama_response_calls text file tr :
  exists calls, fst (get_ollama_response text file tr) = tr ++ CallList :: calls /\
    (calls = [] \/ (exists p, calls = [CallGenerate llava p])
                \/ (exists ms, calls = [CallChat llava ms])).
Proof.
  destruct (gor_run_shape text file tr) as (calls & r & -> & H). exists calls. auto.
Qed.

(** A server whose replies do not depend on earlier calls. *)
Definition stateless : Prop :=
  (forall tr, srv_list tr = srv_list []) /\
  (forall tr m p, srv_generate tr m p = srv_generate [] m p) /\
  (forall tr m ms, srv_chat tr m ms = srv_chat [] m ms).

(** C13: against a stateless server a run does not depend on what came
    before: it appends the same calls and returns the same pair, so two
    identical requests give identical answers. *)
Theorem get_ollama_response_stateless text file tr :
  stateless ->
  get_ollama_response text file tr =
    (tr ++ fst (get_ollama_response text file []), snd (get_ollama_response text file [])).
Proof.
  intros (Hl & Hg & Hc).
  destruct file as [f|]; [destruct (is_pdf f) eqn:Hp|];
    [rewrite !(gor_pdf_eq text f _ Hp)
    |rewrite !(gor_image_eq text f _ Hp)
    |rewrite !gor_text_eq];
    cbv zeta; rewrite (Hl tr);
    repeat (rewrite ?(Hg (_ ++ _)), ?(Hc (_ ++ _));
            match goal with
            | |- context [match ?x with Ok _ => _ | Err _ => _ end] => destruct x
            end);
    simpl; rewrite <- ?app_assoc; reflexivity.
Qed.

(** C5: the model sees the PDF text cut to its first 2000 characters:
    the prompt is the user's text, the header, and a prefix of the PDF text
    of length [min 2000 (len pdf_text)], the whole text when it is short. *)
Theorem pdf_prompt_truncation text pdf_text :
  exists P rest, pdf_prompt text pdf_text = text ++ pdf_header ++ P /\
    pdf_text = P ++ rest /\ py_len P = Nat.min 2000 (py_len pdf_text) /\
    (py_len pdf_text <= 2000 -> P = pdf_text).
Proof.
  exists (py_slice_to pdf_text 2000), (skipn 2000 pdf_text).
  split; [reflexivity|]. split; [symmetry; apply firstn_skipn|].
  split; [apply py_len_slice_to|]. apply py_slice_to_short.
Qed.

(** C6: the preview is the whole PDF text when it has at most 500
    characters, and otherwise its first 500 characters followed by
    ["..."]. *)
Theorem pdf_preview_spec pdf_text :
  (py_len pdf_text <= 500 -> pdf_preview pdf_text = pdf_text) /\
  (500 < py_len pdf_text -> exists P rest,
     pdf_text = P ++ rest /\ py_len P = 500 /\ rest <> [] /\
     pdf_preview pdf_text = P ++ lit "...").
Proof.
  unfold pdf_preview. split; intros H.
  - destruct (Nat.ltb_spec 500 (py_len pdf_text)); [lia | reflexivity].
  - destruct (Nat.ltb_spec 500 (py_len pdf_text)); [|lia].
    exists (py_slice_to pdf_text 500), (skipn 500 pdf_text).
    split; [symmetry; apply firstn_skipn|].
    split; [rewrite py_len_slice_to; lia|]. split; [|reflexivity].
    intros E. pose proof (length_skipn 500 pdf_text) as L.
    rewrite E in L. unfold py_len in H. simpl in L. lia.
Qed.

(** C10: an image Pillow decodes but cannot write as JPEG (an RGBA or
    palette PNG) makes the gateway answer with the error string, which
    asks whether Ollama is running although the probe succeeded and no
    model call was made. *)
Theorem get_ollama_response_mode_error text f tr im :
  is_pdf f = false -> srv_list tr = Ok tt ->
  Image_open (uf_data f) = Ok im -> im_load im = Ok tt ->
  im_width im <> 0%Z -> im_height im <> 0%Z -> RAWMODE (im_mode im) = None ->
  get_ollama_response text (Some f) tr =
    (tr ++ [CallList],
     Ok (error_message (os_error (lit "cannot write mode " ++ mode_name (im_mode im)
                                  ++ lit " as JPEG")), None)).
Proof.
  intros Hp Hl Ho Hload Hw Hh Hm. rewrite (gor_image_eq text f tr Hp).
  cbv zeta. rewrite Hl, Ho. unfold image_save_jpeg. rewrite Hload. simpl.
  apply Z.eqb_neq in Hw, Hh. rewrite Hw, Hh, Hm. reflexivity.
Qed.

(** C27: when a run on an image issues its [chat] call, the call carries one
    user message with the prompt and one image, and that image decodes
    (base64) to the JPEG bytes Pillow wrote for the decoded upload. *)
Theorem chat_payload_is_jpeg text f tr msgs :
  is_pdf f = false ->
  In (CallChat llava msgs) (fst (get_ollama_response text (Some f) tr)) ->
  ~ In (CallChat llava msgs) tr ->
  exists im s, Image_open (uf_data f) = Ok im /\
    msgs = [mk_message (lit "user") text [s]] /\ B64.b64decode s = Some (jpeg_encode im).
Proof.
  intros Hp Hin Hnot. rewrite (gor_image_eq text f tr Hp) in Hin. cbv zeta in Hin.
  destruct (srv_list tr); [|simpl in Hin; apply in_app_or in Hin as [H|[H|[]]];
                           [contradiction | discriminate]].
  destruct (Image_open (uf_data f)) as [im|e];
    [|simpl in Hin; apply in_app_or in Hin as [H|[H|[]]]; [contradiction | discriminate]].
  destruct (image_save_jpeg im) as [jpeg|e] eqn:Ej;
    [|simpl in Hin; apply in_app_or in Hin as [H|[H|[]]]; [contradiction | discriminate]].
  assert (Hm : msgs = [mk_message (lit "user") text [B64.b64encode jpeg]]).
  { destruct (srv_chat _ _ _); simpl in Hin; rewrite <- app_assoc in Hin;
      apply in_app_or in Hin as [H|[H|[H|[]]]];
      [contradiction | discriminate | now injection H as -> | contradiction
      | discriminate | now injection H as -> ]. }
  exists im, (B64.b64encode jpeg). split; [reflexivity|]. split; [exact Hm|].
  apply image_save_jpeg_ok in Ej. subst jpeg. apply B64.b64_roundtrip, jpeg_encode_bytes.
Qed.
End Theorems.

(** A server that is down: every call raises [e]. *)
Definition server_down (e : exn) : OllamaServer := {|
  srv_list := fun _ => Err e;
  srv_generate := fun _ _ _ => Err e;
  srv_chat := fun _ _ _ => Err e
|}.

(** A server that is up and answers every request with [answer]. *)
Definition server_answering (answer : pystr) : OllamaServer := {|
  srv_list := fun _ => Ok tt;
  srv_generate := fun _ _ _ => Ok (mk_generate_response answer);
  srv_chat := fun _ _ _ => Ok (mk_chat_response (mk_message (lit "assistant") answer []))
|}.

Section Collision.
Context `{IL : ImageLib} `{PL : PdfLib}.

(** C25: failures are not distinguishable from answers: whatever the
    request, a server that is down with exception [e] produces the same
    pair as a reachable server whose model answers a text-only prompt with
    the text of the error string. *)
Theorem error_indistinguishable_from_answer e text file tr :
  snd (@get_ollama_response IL PL (server_down e) text file tr) =
  snd (@get_ollama_response IL PL (server_answering (error_message e)) text None tr).
Proof. run_gm. reflexivity. Qed.
End Collision.

(** ** Concrete servers for the examples *)

Module Examples.
Import Normalizer.Examples.

(** A server that answers every call and echoes the prompt. *)
Definition echo_server : OllamaServer := {|
  srv_list := fun _ => Ok tt;
  srv_generate := fun _ _ p => Ok (mk_generate_response (lit "echo: " ++ p));
  srv_chat := fun _ _ ms =>
    Ok (mk_chat_response (mk_message (lit "assistant") (concat (map msg_content ms)) []))
|}.

(** [ollama serve] is not running. *)
Definition connection_refused : exn :=
  mk_exn "ConnectionError" (lit "[Errno 111] Connection refused").
Definition down_server : OllamaServer := server_down connection_refused.

Definition a_pdf : uploaded_file :=
  mk_file (lit "doc.pdf") (lit "application/pdf") [37; 72; 105]%Z.
Definition a_png : uploaded_file := mk_file (lit "pic.png") (lit "image/png") [0; 1; 1; 7]%Z.
Definition an_rgba_png : uploaded_file :=
  mk_file (lit "logo.png") (lit "image/png") [1; 2; 2; 7; 7]%Z.
End Examples.

Import Examples Normalizer.Examples.

Lemma get_ollama_response_pdf_witness :
  @get_ollama_response toy_images toy_pdfs echo_server (lit "Sum up") (Some a_pdf) []
  = ([CallList; CallGenerate llava (lit "Sum up" ++ pdf_header ++ [72; 105]%Z)],
     Ok (lit "echo: " ++ lit "Sum up" ++ pdf_header ++ [72; 105]%Z,
         Some (ExtraText [72; 105]%Z))).
Proof.
  rewrite (@get_ollama_response_pdf toy_images toy_pdfs echo_server _ a_pdf [] eq_refl).
  vm_compute. reflexivity.
Defined.

Lemma get_ollama_response_image_witness :
  @get_ollama_response toy_images toy_pdfs echo_server (lit "What is it?") (Some a_png) []
  = ([CallList; CallChat llava [mk_message (lit "user") (lit "What is it?") [lit "Bw=="]]],
     Ok (lit "What is it?", Some (@ExtraImage toy_images (mk_toy ModeRGB 1 1 [7]%Z)))).
Proof.
  rewrite (@get_ollama_response_image toy_images toy_pdfs echo_server _ a_png [] eq_refl).
  vm_compute. reflexivity.
Defined.

Lemma get_ollama_response_probe_fails_witness :
  @get_ollama_response toy_images toy_pdfs down_server (lit "hi") None []
  = ([CallList], Ok (error_message connection_refused, None)).
Proof. exact (@get_ollama_response_probe_fails toy_images toy_pdfs down_server _ None [] _ eq_refl). Defined.

Lemma get_ollama_response_stateless_witness :
  let run := @get_ollama_response toy_images toy_pdfs echo_server (lit "hi") None in
  run [CallList] = ([CallList] ++ fst (run []), snd (run [])).
Proof.
  apply (@get_ollama_response_stateless toy_images toy_pdfs echo_server).
  repeat split.
Defined.

Lemma chat_payload_is_jpeg_witness :
  exists im s, @Image_open toy_images (uf_data a_png) = Ok im /\
    [mk_message (lit "user") (lit "What is it?") [lit "Bw=="]] =
      [mk_message (lit "user") (lit "What is it?") [s]] /\
    B64.b64decode s = Some (@jpeg_encode toy_images im).
Proof.
  apply (@chat_payload_is_jpeg toy_images toy_pdfs echo_server _ a_png []); [reflexivity| |].
  - vm_compute. right. left. reflexivity.
  - intros [].
Defined.

Lemma pdf_prompt_truncation_witness :
  pdf_prompt (lit "q") [72; 105]%Z = lit "q" ++ pdf_header ++ [72; 105]%Z.
Proof.
  destruct (pdf_prompt_truncation (lit "q") [72; 105]%Z) as (P & rest & E & _ & _ & Hs).
  rewrite E, Hs by (vm_compute; lia). reflexivity.
Defined.

Lemma pdf_preview_spec_witness :
  pdf_preview (repeat 66%Z 10) = repeat 66%Z 10 /\
  exists P rest, repeat 66%Z 501 = P ++ rest /\ py_len P = 500 /\ rest <> [] /\
                 pdf_preview (repeat 66%Z 501) = P ++ lit "...".
Proof.
  split.
  - apply (proj1 (pdf_preview_spec (repeat 66%Z 10))). vm_compute. lia.
  - apply (proj2 (pdf_preview_spec (repeat 66%Z 501))). vm_compute. lia.
Defined.

Lemma get_ollama_response_mode_error_witness :
  @get_ollama_response toy_images toy_pdfs echo_server (lit "hi") (Some an_rgba_png) []
  = ([CallList],
     Ok (lit "Error: cannot write mode RGBA as JPEG. Is Ollama running on 127.0.0.1:11434?",
         None)).
Proof.
  rewrite (@get_ollama_response_mode_error toy_images toy_pdfs echo_server _ an_rgba_png []
             (mk_toy ModeRGBA 2 2 [7; 7]%Z) eq_refl eq_refl eq_refl eq_refl
             ltac:(simpl; lia) ltac:(simpl; lia) eq_refl).
  vm_compute. reflexivity.
Defined.

End Gateway.
