(* ===== verification/GatewaySpec.v ===== *)
(** The contract of the Response Gateway, and the refinement theorem.

    [gateway_spec] states, one rule per case of the algorithm, what a
    request may do: which calls it makes and which outcome it has.  The
    outcome is the tagged result the design notes ask for:
    [Answered text preview] or [Failed kind e], with the error kinds of the
    taxonomy (a file that does not decode, a PDF that does not parse, a
    failure of the model server).  The prompt, the preview and the image
    payload are described by their properties (a prefix of the right length,
    a payload that decodes to the JPEG bytes), not by the code's slicing or
    encoder.  [get_ollama_response] refines the contract: each of its runs is
    one the contract allows, with the outcome collapsed to one string by
    [render]. *)

From Stdlib Require Import String List ZArith Lia Bool.
From S2P Require Import Prelude Base64 Utf8 Normalizer Gateway.
Import ListNotations.
Import Normalizer Gateway.

Module GatewaySpec.

(** The error taxonomy. *)
Inductive failure_kind :=
| DecodeError     (** the image does not decode or cannot be re-encoded *)
| ParseError      (** the PDF does not parse or a page fails *)
| ServerError.    (** the model server is unreachable or fails *)

Section Spec.
Context `{IL : ImageLib} `{PL : PdfLib} `{SV : OllamaServer}.

Inductive outcome :=
| Answered (text : pystr) (preview : option extra)
| Failed (kind : failure_kind) (e : exn).

(** The current policy: every failure becomes the one error string. *)
Definition render (o : outcome) : pystr * option extra :=
  match o with
  | Answered t p => (t, p)
  | Failed _ e => (error_message e, None)
  end.

(** The outcome of a model call. *)
Definition model_outcome {A} (r : result A) (k : A -> outcome) : outcome :=
  match r with
  | Ok a => k a
  | Err e => Failed ServerError e
  end.

(** The text the model sees for a PDF: the prompt, the header, and the
    first [min 2000 (len t)] characters of the extracted text. *)
Definition pdf_input_ok (text t prompt : pystr) : Prop :=
  exists P rest, prompt = text ++ pdf_header ++ P /\ t = P ++ rest /\
                 length P = Nat.min 2000 (length t).

(** The preview of a PDF text: the text itself when it has at most 500
    characters, otherwise its first 500 followed by an ellipsis. *)
Definition pdf_preview_ok (t v : pystr) : Prop :=
  (length t <= 500 /\ v = t) \/
  (500 < length t /\ exists P rest, t = P ++ rest /\ length P = 500 /\ v = P ++ lit "...").

(** [gateway_spec text file tr tr' o]: from the call history [tr], the
    request may end with history [tr'] and outcome [o]. *)
Inductive gateway_spec (text : pystr) : option uploaded_file -> trace -> trace -> outcome -> Prop :=
| gs_probe_fails file tr e :
    srv_list tr = Err e ->
    gateway_spec text file tr (tr ++ [CallList]) (Failed ServerError e)
| gs_text tr u :
    srv_list tr = Ok u ->
    gateway_spec text None tr (tr ++ [CallList; CallGenerate llava text])
      (model_outcome (srv_generate (tr ++ [CallList]) llava text)
                     (fun g => Answered (gr_response g) None))
| gs_pdf_parse_error f tr u e :
    is_pdf f = true -> srv_list tr = Ok u -> extract_text_from_pdf f = Err e ->
    gateway_spec text (Some f) tr (tr ++ [CallList]) (Failed ParseError e)
| gs_pdf f tr u t prompt v :
    is_pdf f = true -> srv_list tr = Ok u -> extract_text_from_pdf f = Ok t ->
    pdf_input_ok text t prompt -> pdf_preview_ok t v ->
    gateway_spec text (Some f) tr (tr ++ [CallList; CallGenerate llava prompt])
      (model_outcome (srv_generate (tr ++ [CallList]) llava prompt)
                     (fun g => Answered (gr_response g) (Some (ExtraText v))))
| gs_image_decode_error f tr u e :
    is_pdf f = false -> srv_list tr = Ok u -> Image_open (uf_data f) = Err e ->
    gateway_spec text (Some f) tr (tr ++ [CallList]) (Failed DecodeError e)
| gs_image_encode_error f tr u im e :
    is_pdf f = false -> srv_list tr = Ok u -> Image_open (uf_data f) = Ok im ->
    image_save_jpeg im = Err e ->
    gateway_spec text (Some f) tr (tr ++ [CallList]) (Failed DecodeError e)
| gs_image f tr u im jpeg s :
    is_pdf f = false -> srv_list tr = Ok u -> Image_open (uf_data f) = Ok im ->
    image_save_jpeg im = Ok jpeg -> B64.b64decode s = Some jpeg ->
    gateway_spec text (Some f) tr
      (tr ++ [CallList; CallChat llava [mk_message (lit "user") text [s]]])
      (model_outcome (srv_chat (tr ++ [CallList]) llava [mk_message (lit "user") text [s]])
                     (fun c => Answered (msg_content (cr_message c)) (Some (ExtraImage im)))).
End Spec.

(** ** Lemmas *)

Section Lemmas.
Context `{IL : ImageLib} `{PL : PdfLib} `{SV : OllamaServer}.

Lemma pdf_prompt_input_ok text t : pdf_input_ok text t (pdf_prompt text t).
Proof.
  exists (py_slice_to t 2000), (skipn 2000 t). split; [reflexivity|].
  split; [symmetry; apply firstn_skipn | apply length_firstn].
Qed.

Lemma pdf_preview_sat t : pdf_preview_ok t (pdf_preview t).
Proof.
  unfold pdf_preview_ok, pdf_preview. destruct (Nat.ltb_spec 500 (py_len t)) as [H|H].
  - right. split; [exact H|]. exists (py_slice_to t 500), (skipn 500 t).
    split; [symmetry; apply firstn_skipn|]. split; [|reflexivity].
    unfold py_slice_to. rewrite length_firstn. unfold py_len in H. lia.
  - left. split; [exact H | reflexivity].
Qed.

(** Rendering a model call's outcome is what the code's branches return. *)
Lemma render_model_outcome {A} (r : result A) (f : A -> pystr) (p : option extra) :
  render (model_outcome r (fun a => Answered (f a) p)) =
  match r with Ok a => (f a, p) | Err e => (error_message e, None) end.
Proof. destruct r; reflexivity. Qed.

Ltac finish_model :=
  match goal with
  | |- context [match ?r with Ok _ => _ | Err _ => _ end] =>
      rewrite render_model_outcome; destruct r; rewrite <- app_assoc; reflexivity
  end.

(** Every run of the gateway is a run of the contract, rendered. *)
Lemma gor_spec text file tr :
  exists tr' o, gateway_spec text file tr tr' o /\
    get_ollama_response text file tr = (tr', Ok (render o)).
Proof.
  destruct file as [f|]; [destruct (is_pdf f) eqn:Hp|];
    [rewrite (gor_pdf_eq text f tr Hp) | rewrite (gor_image_eq text f tr Hp)
    | rewrite gor_text_eq]; cbv zeta;
    (destruct (srv_list tr) as [u|e] eqn:Hl;
     [| eexists _, _; split; [apply gs_probe_fails; exact Hl | reflexivity]]).
  - destruct (extract_text_from_pdf f) as [t|e] eqn:Hx.
    + eexists _, _. split.
      * exact (gs_pdf text f tr u t _ _ Hp Hl Hx (pdf_prompt_input_ok text t) (pdf_preview_sat t)).
      * finish_model.
    + eexists _, _. split; [exact (gs_pdf_parse_error text f tr u e Hp Hl Hx) | reflexivity].
  - destruct (Image_open (uf_data f)) as [im|e] eqn:Ho.
    + destruct (image_save_jpeg im) as [jpeg|e] eqn:Hs.
      * assert (Hd : B64.b64decode (B64.b64encode jpeg) = Some jpeg).
        { apply image_save_jpeg_ok in Hs. subst. apply B64.b64_roundtrip, jpeg_encode_bytes. }
        eexists _, _. split; [exact (gs_image text f tr u im jpeg _ Hp Hl Ho Hs Hd)|].
        finish_model.
      * eexists _, _. split; [exact (gs_image_encode_error text f tr u im e Hp Hl Ho Hs)|].
        reflexivity.
    + eexists _, _. split; [exact (gs_image_decode_error text f tr u e Hp Hl Ho) | reflexivity].
  - eexists _, _. split; [exact (gs_text text tr u Hl)|]. finish_model.
Qed.

(** C28: [get_ollama_response] refines the contract: every run makes the
    calls and reaches an outcome the contract allows, and returns that
    outcome rendered as one string. *)
Theorem get_ollama_response_refines text file tr :
  exists tr' o, gateway_spec text file tr tr' o /\
    get_ollama_response text file tr = (tr', Ok (render o)).
Proof. apply gor_spec. Qed.

End Lemmas.

End GatewaySpec.
