(* ===== verification/App.v ===== *)
(** The script body ([src/app.py], lines 36-47 and 82-93).

    Streamlit re-runs the whole script on every interaction.  [script_run]
    is one run: read the widgets ([ui_input]), decide whether to call the
    gateway (button pressed, or live preview on and a non-empty prompt),
    and produce the elements rendered below the response area.  A
    [session] is a sequence of runs sharing the server's call history. *)

From Stdlib Require Import String List ZArith Lia Bool.
From S2P Require Import Prelude Base64 Normalizer Gateway.
Import ListNotations.
Import Normalizer Gateway.

Module App.

(** The widgets' values in one run. *)
Record ui_input := mk_input {
  button_clicked : bool;            (** [st.button("Get Response")] *)
  live_preview : bool;              (** [st.checkbox("Enable Live Preview", value=False)] *)
  text_input : pystr;               (** [st.text_area("Your Prompt", ...)] *)
  uploaded : option uploaded_file   (** [st.file_uploader(...)] *)
}.

(** The initial values of the widgets (lines 36 and 44). *)
Definition default_prompt : pystr := lit "Tell me about this content...".
Definition default_live_preview : bool := false.

Section App.
Context `{IL : ImageLib} `{PL : PdfLib} `{SV : OllamaServer}.

Local Open Scope py_scope.

(** What a run renders. *)
Inductive element :=
| Markdown (s : pystr)                     (** [st.markdown] / [container.markdown] *)
| TextBlock (s : pystr)                    (** [st.text] *)
| ImageBlock (im : image) (caption : pystr). (** [st.image] *)

(** [st.button(...) or (live_preview and text_input)] (line 82). *)
Definition triggered (inp : ui_input) : bool :=
  button_clicked inp || (live_preview inp && py_truthy_str (text_input inp)).

(** Lines 88-93: render the preview when it is truthy. *)
Definition display_extra (x : option extra) : list element :=
  match x with
  | None => []
  | Some (ExtraText s) =>
      if py_truthy_str s then [Markdown (lit "**PDF Preview:**"); TextBlock s] else []
  | Some (ExtraImage im) => [ImageBlock im (lit "Uploaded Image")]
  end.

(** Lines 82-93. *)
Definition script_run (inp : ui_input) : GM (list element) :=
  if triggered inp then
    r <- get_ollama_response (text_input inp) (uploaded inp) ;;
    ret (Markdown (lit "**Response:** " ++ fst r) :: display_extra (snd r))
  else ret [].

(** Successive runs of the script. *)
Fixpoint session (inps : list ui_input) : GM (list (list element)) :=
  match inps with
  | [] => ret []
  | inp :: rest =>
      out <- script_run inp ;;
      outs <- session rest ;;
      ret (out :: outs)
  end.
End App.

(** ** Theorems *)

Definition is_probe (c : ollama_call) : bool :=
  match c with CallList => true | _ => false end.

(** The number of liveness probes in a list of calls. *)
Definition count_probes (calls : list ollama_call) : nat := length (filter is_probe calls).

Lemma count_probes_app l1 l2 : count_probes (l1 ++ l2) = (count_probes l1 + count_probes l2)%nat.
Proof. unfold count_probes. now rewrite filter_app, length_app. Qed.

Section Theorems.
Context `{IL : ImageLib} `{PL : PdfLib} `{SV : OllamaServer}.

Lemma script_run_shape inp tr :
  exists calls out, script_run inp tr = (tr ++ calls, Ok out) /\
    count_probes calls = (if triggered inp then 1 else 0)%nat.
Proof.
  unfold script_run. destruct (triggered inp).
  - destruct (gor_run_shape (text_input inp) (uploaded inp) tr)
      as (calls & r & E & [-> | [[p ->] | [ms ->]]]);
      unfold bind; rewrite E; do 2 eexists; split; reflexivity.
  - exists [], []. rewrite app_nil_r. split; reflexivity.
Qed.

(** A non-empty text has a non-empty preview. *)
Lemma pdf_preview_truthy t : t <> [] -> py_truthy_str (pdf_preview t) = true.
Proof.
  unfold pdf_preview. destruct (Nat.ltb 500 (py_len t)) eqn:E.
  - unfold py_slice_to. apply Nat.ltb_lt in E. unfold py_len in E.
    destruct t; [cbn in E; lia | reflexivity].
  - destruct t; [congruence | reflexivity].
Qed.

Lemma script_run_text_answer inp tr u g :
  triggered inp = true -> uploaded inp = None -> srv_list tr = Ok u ->
  srv_generate (tr ++ [CallList]) llava (text_input inp) = Ok g ->
  script_run inp tr = (tr ++ [CallList; CallGenerate llava (text_input inp)],
                       Ok [Markdown (lit "**Response:** " ++ gr_response g)]).
Proof.
  intros Ht Hu Hl Hg. unfold script_run, bind. rewrite Ht, Hu, gor_text_eq. cbv zeta.
  rewrite Hl, Hg, <- app_assoc. reflexivity.
Qed.

(** *** A server that comes back

    The server refuses the probe until it has seen [k] of them; from then
    on it answers the prompt of [inp], a text request. *)
Section Recovery.
Variables (k : nat) (inp : ui_input).
Hypothesis Htrig : triggered inp = true.
Hypothesis Hnofile : uploaded inp = None.
Hypothesis Hup : forall tr, (k <= count_probes tr)%nat -> srv_list tr = Ok tt.
Hypothesis Hanswer : forall tr, (k <= count_probes tr)%nat ->
  exists g, srv_generate tr llava (text_input inp) = Ok g.

Lemma session_repeat_recovers n tr :
  (k <= n + count_probes tr)%nat ->
  exists tr' tr1 outs g, srv_generate tr1 llava (text_input inp) = Ok g /\
    session (repeat inp (S n)) tr =
      (tr', Ok (outs ++ [[Markdown (lit "**Response:** " ++ gr_response g)]])).
Proof.
  revert tr. induction n as [|n IH]; intros tr Hk.
  - destruct (Hanswer (tr ++ [CallList])) as [g Hg].
    { rewrite count_probes_app. simpl in *. lia. }
    exists (tr ++ [CallList; CallGenerate llava (text_input inp)]), (tr ++ [CallList]), [], g.
    split; [exact Hg|]. cbn [repeat session]. unfold bind.
    rewrite (script_run_text_answer inp tr tt g Htrig Hnofile (Hup tr ltac:(lia)) Hg).
    reflexivity.
  - destruct (script_run_shape inp tr) as (c1 & out & E1 & H1). rewrite Htrig in H1.
    destruct (IH (tr ++ c1)) as (tr' & tr1 & outs & g & Hg & E2).
    { rewrite count_probes_app, H1. lia. }
    exists tr', tr1, (out :: outs), g. split; [exact Hg|].
    change (repeat inp (S (S n))) with (inp :: repeat inp (S n)).
    cbn [session]. unfold bind at 1. rewrite E1. unfold bind at 1. rewrite E2. reflexivity.
Qed.
End Recovery.

(** C16: without the button, and with live preview off or an empty
    prompt, a run calls nothing and renders nothing. *)
Theorem script_run_not_triggered inp tr :
  button_clicked inp = false ->
  (live_preview inp = false \/ text_input inp = []) ->
  script_run inp tr = (tr, Ok []).
Proof.
  intros Hb Hl. unfold script_run, triggered. rewrite Hb.
  destruct Hl as [-> | ->]; cbn [orb py_truthy_str]; rewrite ?Bool.andb_false_r; reflexivity.
Qed.

(** C17: a triggered run on a PDF whose text [t] is not empty, against a
    server that is up and answers, renders the answer, then the header
    ["**PDF Preview:**"], then the preview [pdf_preview t] as plain text. *)
Theorem script_run_pdf_preview inp f tr t r :
  triggered inp = true -> uploaded inp = Some f -> is_pdf f = true ->
  srv_list tr = Ok tt -> extract_text_from_pdf f = Ok t -> t <> [] ->
  srv_generate (tr ++ [CallList]) llava (pdf_prompt (text_input inp) t) = Ok r ->
  script_run inp tr =
    (tr ++ [CallList; CallGenerate llava (pdf_prompt (text_input inp) t)],
     Ok [Markdown (lit "**Response:** " ++ gr_response r);
         Markdown (lit "**PDF Preview:**"); TextBlock (pdf_preview t)]).
Proof.
  intros Ht Hu Hp Hl Hx Hne Hg. unfold script_run, bind. rewrite Ht, Hu.
  rewrite (gor_pdf_eq _ f tr Hp). cbv zeta. rewrite Hl, Hx, Hg.
  cbn [fst snd display_extra]. rewrite (pdf_preview_truthy t Hne), <- app_assoc. reflexivity.
Qed.

(** C18: a PDF without text gets no preview at all: the gateway returns
    the empty [str] as preview, which is falsy, so only the answer is
    rendered. *)
Theorem script_run_empty_pdf_preview inp f tr r :
  triggered inp = true -> uploaded inp = Some f -> is_pdf f = true ->
  srv_list tr = Ok tt -> extract_text_from_pdf f = Ok [] ->
  srv_generate (tr ++ [CallList]) llava (pdf_prompt (text_input inp) []) = Ok r ->
  script_run inp tr =
    (tr ++ [CallList; CallGenerate llava (pdf_prompt (text_input inp) [])],
     Ok [Markdown (lit "**Response:** " ++ gr_response r)]).
Proof.
  intros Ht Hu Hp Hl Hx Hg. unfold script_run, bind. rewrite Ht, Hu.
  rewrite (gor_pdf_eq _ f tr Hp). cbv zeta. rewrite Hl, Hx, Hg.
  rewrite <- app_assoc. reflexivity.
Qed.

(** C19: over a session, the server is probed exactly once per triggered
    run (with live preview on and a non-empty prompt, once per rerun) and
    every run renders. *)
Theorem session_probes inps tr :
  exists calls outs, session inps tr = (tr ++ calls, Ok outs) /\
    count_probes calls = length (filter triggered inps) /\ length outs = length inps.
Proof.
  revert tr. induction inps as [|inp rest IH]; intros tr.
  - exists [], []. rewrite app_nil_r. repeat split.
  - destruct (script_run_shape inp tr) as (c1 & out & E1 & H1).
    destruct (IH (tr ++ c1)) as (c2 & outs & E2 & H2 & L2).
    exists (c1 ++ c2), (out :: outs). cbn [session]. unfold bind. rewrite E1, E2.
    rewrite app_assoc. split; [reflexivity|]. split; [|simpl; congruence].
    rewrite count_probes_app, H1, H2. simpl. destruct (triggered inp); reflexivity.
Qed.

(** C29: liveness.  Against a server that refuses connections until it
    has been probed [k] times and then answers, a user who presses the
    button [k + 1] times with a text prompt sees the model's answer: the
    last run renders [**Response:**] followed by a reply the server gave,
    not an error message. *)
Theorem session_eventually_answers k inp tr :
  triggered inp = true -> uploaded inp = None ->
  (forall tr', (k <= count_probes tr')%nat -> srv_list tr' = Ok tt) ->
  (forall tr', (k <= count_probes tr')%nat ->
     exists g, srv_generate tr' llava (text_input inp) = Ok g) ->
  exists tr' tr1 outs g, srv_generate tr1 llava (text_input inp) = Ok g /\
    session (repeat inp (S k)) tr =
      (tr', Ok (outs ++ [[Markdown (lit "**Response:** " ++ gr_response g)]])).
Proof. intros. apply (session_repeat_recovers k); auto. lia. Qed.

(** C36: a triggered run on an image that Pillow decodes and writes as
    JPEG, against a server that is up and answers, sends the JPEG in base64
    with the prompt in one chat call and renders the answer, then the
    decoded image captioned ["Uploaded Image"]. *)
Theorem script_run_image_preview inp f tr im jpeg r :
  triggered inp = true -> uploaded inp = Some f -> is_pdf f = false ->
  srv_list tr = Ok tt -> Image_open (uf_data f) = Ok im -> image_save_jpeg im = Ok jpeg ->
  srv_chat (tr ++ [CallList]) llava
    [mk_message (lit "user") (text_input inp) [B64.b64encode jpeg]] = Ok r ->
  script_run inp tr =
    (tr ++ [CallList; CallChat llava [mk_message (lit "user") (text_input inp) [B64.b64encode jpeg]]],
     Ok [Markdown (lit "**Response:** " ++ msg_content (cr_message r));
         ImageBlock im (lit "Uploaded Image")]).
Proof.
  intros Ht Hu Hp Hl Ho Hs Hc. unfold script_run, bind. rewrite Ht, Hu.
  rewrite (gor_image_eq _ f tr Hp). cbv zeta. rewrite Hl, Ho, Hs, Hc, <- app_assoc.
  reflexivity.
Qed.
End Theorems.

(** ** Examples *)

Import Normalizer.Examples Gateway.Examples.

Definition live_input (f : option uploaded_file) : ui_input :=
  mk_input false true default_prompt f.

Lemma script_run_not_triggered_witness :
  @script_run toy_images toy_pdfs echo_server (mk_input false true [] None) [CallList]
  = ([CallList], Ok []).
Proof. apply (@script_run_not_triggered toy_images toy_pdfs echo_server); auto. Defined.

Lemma script_run_pdf_preview_witness :
  @script_run toy_images toy_pdfs echo_server (live_input (Some a_pdf)) [] =
    ([CallList; CallGenerate llava (pdf_prompt default_prompt (lit "Hi"))],
     Ok [Markdown (lit "**Response:** " ++ lit "echo: " ++ pdf_prompt default_prompt (lit "Hi"));
         Markdown (lit "**PDF Preview:**"); TextBlock (pdf_preview (lit "Hi"))]).
Proof.
  exact (@script_run_pdf_preview toy_images toy_pdfs echo_server (live_input (Some a_pdf)) a_pdf []
           (lit "Hi") (mk_generate_response (lit "echo: " ++ pdf_prompt default_prompt (lit "Hi")))
           eq_refl eq_refl eq_refl eq_refl eq_refl ltac:(discriminate) eq_refl).
Defined.

Lemma script_run_image_preview_witness :
  @script_run toy_images toy_pdfs echo_server (live_input (Some a_png)) [] =
    ([CallList; CallChat llava [mk_message (lit "user") default_prompt [B64.b64encode [7%Z]]]],
     Ok [Markdown (lit "**Response:** " ++ default_prompt);
         ImageBlock (mk_toy ModeRGB 1 1 [7%Z] : @image toy_images) (lit "Uploaded Image")]).
Proof.
  exact (@script_run_image_preview toy_images toy_pdfs echo_server (live_input (Some a_png)) a_png []
           (mk_toy ModeRGB 1 1 [7%Z]) [7%Z]
           (mk_chat_response (mk_message (lit "assistant") default_prompt []))
           eq_refl eq_refl eq_refl eq_refl eq_refl eq_refl eq_refl).
Defined.

Lemma script_run_empty_pdf_preview_witness :
  let f := mk_file (lit "scan.pdf") (lit "application/pdf") [37; 0]%Z in
  @script_run toy_images toy_pdfs echo_server (live_input (Some f)) [] =
    ([CallList; CallGenerate llava (pdf_prompt default_prompt [])],
     Ok [Markdown (lit "**Response:** " ++ lit "echo: " ++ pdf_prompt default_prompt [])]).
Proof.
  intros f.
  exact (@script_run_empty_pdf_preview toy_images toy_pdfs echo_server (live_input (Some f)) f []
           (mk_generate_response (lit "echo: " ++ pdf_prompt default_prompt []))
           eq_refl eq_refl eq_refl eq_refl eq_refl eq_refl).
Defined.

(** A server that refuses the probe until it has been probed [k] times. *)
Definition recovering_server (k : nat) (answer : pystr) : OllamaServer := {|
  srv_list := fun tr => if Nat.leb k (count_probes tr) then Ok tt else Err connection_refused;
  srv_generate := fun _ _ _ => Ok (mk_generate_response answer);
  srv_chat := fun _ _ _ => Ok (mk_chat_response (mk_message (lit "assistant") answer []))
|}.

Definition sky_input : ui_input := mk_input true false (lit "Why is the sky blue?") None.

Lemma session_eventually_answers_witness :
  exists tr' tr1 outs g,
    @srv_generate (recovering_server 2 (lit "Rayleigh scattering.")) tr1 llava
      (text_input sky_input) = Ok g /\
    @session toy_images toy_pdfs (recovering_server 2 (lit "Rayleigh scattering."))
      (repeat sky_input 3) [] =
      (tr', Ok (outs ++ [[Markdown (lit "**Response:** " ++ gr_response g)]])).
Proof.
  apply (@session_eventually_answers toy_images toy_pdfs
           (recovering_server 2 (lit "Rayleigh scattering.")) 2 sky_input []).
  - reflexivity.
  - reflexivity.
  - intros tr' H. apply Nat.leb_le in H. cbn -[Nat.leb count_probes]. rewrite H. reflexivity.
  - intros tr' _. eexists. reflexivity.
Defined.

End App.
