(* ===== verification/Page.v ===== *)
(** The whole page ([src/app.py], lines 22-53 and 81-97).

    One Streamlit run executes the script top to bottom.  Each [st.*] call
    appends an element to the container it is called in: the main area,
    the sidebar ([with st.sidebar:]) or a column of [st.columns([2, 1])].
    [st.empty()] reserves a slot that [response_container.markdown(...)]
    later fills in place; [with st.spinner(...)] shows a spinner for the
    duration of its block; [st.set_page_config] must be the first Streamlit
    command of the run and is allowed once, otherwise Streamlit raises
    [StreamlitAPIException].  Widgets return the user's current value,
    which is the [App.ui_input] of the run.

    [app_script] is the script as a program in the state-and-exception
    monad over the server history and the page.  Its theorems: a run never
    raises; it leaves the page configured and the spinner gone; the page it
    builds is the fixed chrome with the response in the slot of the second
    column and the preview in the main area, exactly the elements
    [App.script_run] computes, with the same calls to the server. *)

From Stdlib Require Import String List ZArith Lia Bool.
From S2P Require Import Prelude Normalizer Gateway App.
Import ListNotations.
Import Normalizer Gateway App.

Module Page.

(** Where an element goes; [Column n i] is the [i]-th column of the
    [st.columns] call that is element [n] of the page. *)
Inductive container := Main | Sidebar | Column (n i : nat).

Record page_config := mk_config { page_title : pystr; page_icon : pystr; layout : pystr }.

Section Page.
Context `{IL : ImageLib}.

(** The elements the script creates, with the arguments of the call. *)
Inductive block :=
| TitleB (s : pystr)                                  (** [st.title] *)
| MarkdownB (s : pystr)                               (** [st.markdown] *)
| HeaderB (s : pystr)                                 (** [st.header] *)
| SubheaderB (s : pystr)                              (** [st.subheader] *)
| WriteB (s : pystr)                                  (** [st.write] *)
| InfoB (s : pystr)                                   (** [st.info] *)
| TextB (s : pystr)                                   (** [st.text] *)
| ImageB (im : image) (caption : pystr) (use_column_width : bool) (** [st.image] *)
| CheckboxB (label : pystr) (value : bool)            (** [st.checkbox] *)
| TextAreaB (label value : pystr) (height : Z)        (** [st.text_area] *)
| FileUploaderB (label : pystr) (types : list pystr)  (** [st.file_uploader] *)
| ButtonB (label : pystr)                             (** [st.button] *)
| ColumnsB (spec : list Z)                            (** [st.columns] *)
| EmptyB.                                             (** [st.empty] *)

Record page := mk_page {
  config : option page_config;
  blocks : list (container * block);
  spinner : option pystr
}.

Definition empty_page : page := mk_page None [] None.

(** The state of a run: the calls sent to the server, and the page. *)
Record st_state := mk_st { st_trace : trace; st_page : page }.

Definition SM (A : Type) := PyM st_state A.

Local Open Scope py_scope.

Definition streamlit_api_exception (msg : string) : exn :=
  mk_exn "StreamlitAPIException" (lit msg).

Definition set_page_config (c : page_config) : SM unit := fun s =>
  match config (st_page s), blocks (st_page s) with
  | None, [] => (mk_st (st_trace s) (mk_page (Some c) [] (spinner (st_page s))), Ok tt)
  | _, _ => (s, Err (streamlit_api_exception
      "set_page_config() can only be called once per app page, and must be called as the first Streamlit command in your script."))
  end.

(** Append an element to a container; its position is its handle. *)
Definition emit (c : container) (b : block) : SM nat := fun s =>
  let p := st_page s in
  (mk_st (st_trace s) (mk_page (config p) (blocks p ++ [(c, b)]) (spinner p)),
   Ok (length (blocks p))).

(** A widget shows itself and returns the user's current value. *)
Definition widget {A} (c : container) (b : block) (value : A) : SM A :=
  _ <- emit c b ;; ret value.

(** [col1, col2 = st.columns(spec)] *)
Definition st_columns (spec : list Z) : SM (container * container) :=
  n <- emit Main (ColumnsB spec) ;; ret (Column n 0, Column n 1).

Fixpoint set_nth {A} (n : nat) (x : A) (l : list A) : list A :=
  match l, n with
  | [], _ => []
  | _ :: tl, O => x :: tl
  | y :: tl, S m => y :: set_nth m x tl
  end.

(** [placeholder.markdown(s)]: the element replaces the slot's content. *)
Definition placeholder_markdown (n : nat) (s : pystr) : SM unit := fun st =>
  let p := st_page st in
  let slot := nth n (blocks p) (Main, EmptyB) in
  (mk_st (st_trace st) (mk_page (config p) (set_nth n (fst slot, MarkdownB s) (blocks p)) (spinner p)),
   Ok tt).

Definition set_spinner (x : option pystr) (s : st_state) : st_state :=
  mk_st (st_trace s) (mk_page (config (st_page s)) (blocks (st_page s)) x).

(** [with st.spinner(msg): body]: the spinner is removed when the block
    ends, also when it raises. *)
Definition with_spinner {A} (msg : pystr) (body : SM A) : SM A := fun s =>
  let (s1, r) := body (set_spinner (Some msg) s) in (set_spinner None s1, r).

(** A call to the model server, on the history part of the state. *)
Definition on_server {A} (m : GM A) : SM A := fun s =>
  let (tr, r) := m (st_trace s) in (mk_st tr (st_page s), r).
End Page.
Arguments EmptyB {IL}.

(** ** The script's constants *)

Definition robot_face : pystr := [129302%Z].
Definition heart : pystr := [10084%Z; 65039%Z].

Definition the_config : page_config :=
  mk_config (lit "Interactive AI Demo") robot_face (lit "wide").

Definition indent : pystr := lit "    ".

(** The triple-quoted string of lines 30-35. *)
Definition instructions : pystr :=
  newline ++ indent ++ lit "1. Type a question or prompt in the text box." ++
  newline ++ indent ++ lit "2. Optionally upload an image or PDF." ++
  newline ++ indent ++ lit "3. Click 'Get Response' or watch the live preview (if enabled)." ++
  newline ++ indent ++ lit "4. Enjoy the AI's response!" ++ newline ++ indent.

Definition uploader_types : list pystr := [lit "jpg"; lit "png"; lit "jpeg"; lit "pdf"].

Definition footer_text : pystr :=
  lit "Built with " ++ heart ++ lit " using Streamlit and Ollama | Demo by [Your Name]".

(** ** The script *)

Section Script.
Context `{IL : ImageLib} `{PL : PdfLib} `{SV : OllamaServer}.

Local Open Scope py_scope.

(** Lines 88-93, in the main area. *)
Definition show_extra (x : option extra) : SM unit :=
  match x with
  | None => ret tt
  | Some (ExtraText s) =>
      if py_truthy_str s then
        _ <- emit Main (MarkdownB (lit "**PDF Preview:**")) ;;
        _ <- emit Main (TextB s) ;; ret tt
      else ret tt
  | Some (ExtraImage im) => _ <- emit Main (ImageB im (lit "Uploaded Image") true) ;; ret tt
  end.

(** Lines 83-93: the handler of the button. *)
Definition respond (response_container : nat) (text : pystr) (file : option uploaded_file)
    : SM unit :=
  with_spinner (lit "Processing...") (
    r <- on_server (get_ollama_response text file) ;;
    placeholder_markdown response_container (lit "**Response:** " ++ fst r) ;;
    show_extra (snd r)).

(** Lines 22-53 and 81-97: one run of the script with the widget values
    [inp]. *)
Definition app_script (inp : ui_input) : SM unit :=
  set_page_config the_config ;;
  _ <- emit Main (TitleB (lit "Interactive AI Demo with Text, Images, and PDFs")) ;;
  _ <- emit Main (MarkdownB (lit "Explore AI capabilities by entering text, uploading images, or PDFs. Powered by Ollama (LLaVA).")) ;;
  _ <- emit Sidebar (HeaderB (lit "How to Use")) ;;
  _ <- emit Sidebar (WriteB instructions) ;;
  live_preview <- widget Sidebar (CheckboxB (lit "Enable Live Preview") default_live_preview)
                    (live_preview inp) ;;
  _ <- emit Sidebar (InfoB (lit "Note: Ensure 'ollama serve' is running locally.")) ;;
  cols <- st_columns [2; 1]%Z ;;
  text_input <- widget (fst cols) (TextAreaB (lit "Your Prompt") default_prompt 150)
                  (text_input inp) ;;
  uploaded_file <- widget (fst cols)
                     (FileUploaderB (lit "Upload an Image or PDF (optional)") uploader_types)
                     (uploaded inp) ;;
  _ <- emit (snd cols) (SubheaderB (lit "AI Response")) ;;
  response_container <- emit (snd cols) EmptyB ;;
  clicked <- widget Main (ButtonB (lit "Get Response")) (button_clicked inp) ;;
  (if clicked || (live_preview && py_truthy_str text_input) then
     respond response_container text_input uploaded_file
   else ret tt) ;;
  _ <- emit Main (MarkdownB (lit "---")) ;;
  _ <- emit Main (WriteB footer_text) ;;
  ret tt.

(** A rerun: Streamlit starts every run from an empty page. *)
Definition rerun (inp : ui_input) (tr : trace) : st_state * result unit :=
  app_script inp (mk_st tr empty_page).
End Script.
(** ** The page a run builds *)

Section Layout.
Context `{IL : ImageLib}.

(** An element of [App.script_run] as the page shows it. *)
Definition of_element (e : element) : block :=
  match e with
  | Markdown s => MarkdownB s
  | TextBlock s => TextB s
  | ImageBlock im c => ImageB im c true
  end.

(** The elements above the handler, with the content of the response slot,
    and the button. *)
Definition head_blocks (slot : block) : list (container * block) :=
  [(Main, TitleB (lit "Interactive AI Demo with Text, Images, and PDFs"));
   (Main, MarkdownB (lit "Explore AI capabilities by entering text, uploading images, or PDFs. Powered by Ollama (LLaVA)."));
   (Sidebar, HeaderB (lit "How to Use"));
   (Sidebar, WriteB instructions);
   (Sidebar, CheckboxB (lit "Enable Live Preview") default_live_preview);
   (Sidebar, InfoB (lit "Note: Ensure 'ollama serve' is running locally."));
   (Main, ColumnsB [2; 1]%Z);
   (Column 6 0, TextAreaB (lit "Your Prompt") default_prompt 150);
   (Column 6 0, FileUploaderB (lit "Upload an Image or PDF (optional)") uploader_types);
   (Column 6 1, SubheaderB (lit "AI Response"));
   (Column 6 1, slot);
   (Main, ButtonB (lit "Get Response"))].

Definition footer_blocks : list (container * block) :=
  [(Main, MarkdownB (lit "---")); (Main, WriteB footer_text)].

(** The page that shows the elements [out] of [App.script_run]: the first
    in the response slot, the others in the main area below the button. *)
Definition page_of (out : list element) : list (container * block) :=
  match out with
  | [] => head_blocks EmptyB ++ footer_blocks
  | resp :: extras =>
      head_blocks (of_element resp) ++ map (fun e => (Main, of_element e)) extras ++ footer_blocks
  end.
End Layout.

(** ** Lemmas *)

Section Lemmas.
Context `{IL : ImageLib} `{PL : PdfLib} `{SV : OllamaServer}.

Local Open Scope py_scope.

Definition footer_part : SM unit :=
  _ <- emit Main (MarkdownB (lit "---")) ;; _ <- emit Main (WriteB footer_text) ;; ret tt.

(** The run up to the handler is fixed: it builds the head of the page. *)
Lemma rerun_unfold inp tr :
  rerun inp tr =
  bind (if triggered inp then respond 10 (text_input inp) (uploaded inp) else ret tt)
       (fun _ => footer_part)
       (mk_st tr (mk_page (Some the_config) (head_blocks EmptyB) None)).
Proof. reflexivity. Qed.

Lemma show_extra_eq x s :
  show_extra x s =
  (mk_st (st_trace s) (mk_page (config (st_page s))
     (blocks (st_page s) ++ map (fun e => (Main, of_element e)) (display_extra x))
     (spinner (st_page s))), Ok tt).
Proof.
  destruct s as [tr [c bs sp]].
  destruct x as [[t|im]|]; unfold show_extra, display_extra;
    [destruct (py_truthy_str t)| |]; unfold bind, emit, ret;
    cbn [st_trace st_page config blocks spinner map of_element];
    rewrite ?app_nil_r, <- ?app_assoc; reflexivity.
Qed.

(** The handler fills the slot (element 10) and appends the preview. *)
Lemma respond_eq c text file tr :
  respond 10 text file (mk_st tr (mk_page c (head_blocks EmptyB) None)) =
  match get_ollama_response text file tr with
  | (tr', Ok (res, x)) =>
      (mk_st tr' (mk_page c (head_blocks (MarkdownB (lit "**Response:** " ++ res)) ++
                             map (fun e => (Main, of_element e)) (display_extra x)) None), Ok tt)
  | (tr', Err e) => (mk_st tr' (mk_page c (head_blocks EmptyB) None), Err e)
  end.
Proof.
  unfold respond, with_spinner, on_server, bind. cbn [st_trace set_spinner].
  destruct (get_ollama_response text file tr) as [tr' [[res x]|e]]; [|reflexivity].
  unfold placeholder_markdown. rewrite show_extra_eq. reflexivity.
Qed.

Lemma footer_part_eq tr c bs :
  footer_part (mk_st tr (mk_page c bs None)) = (mk_st tr (mk_page c (bs ++ footer_blocks) None), Ok tt).
Proof. unfold footer_part, bind, emit. cbn. rewrite <- app_assoc. reflexivity. Qed.

(** The page run is [App.script_run] laid out on the page. *)
Lemma rerun_spec inp tr tr' out :
  script_run inp tr = (tr', Ok out) ->
  rerun inp tr = (mk_st tr' (mk_page (Some the_config) (page_of out) None), Ok tt).
Proof.
  rewrite rerun_unfold. unfold script_run. intros H. destruct (triggered inp).
  - destruct (gor_run_shape (text_input inp) (uploaded inp) tr) as (calls & r & E & _).
    unfold bind in H. rewrite E in H. injection H as <- <-.
    unfold bind. rewrite respond_eq, E. destruct r as [res x].
    rewrite footer_part_eq, <- app_assoc. reflexivity.
  - injection H as <- <-. apply footer_part_eq.
Qed.
End Lemmas.

(** ** Theorems *)

Section Theorems.
Context `{IL : ImageLib} `{PL : PdfLib} `{SV : OllamaServer}.

(** C30: the page run refines [App.script_run]: a rerun never raises (the
    page config comes first), makes exactly the calls of [script_run], and
    leaves the page configured, without spinner, holding the fixed chrome
    with [script_run]'s first element in the response slot of the second
    column and its other elements in the main area above the footer. *)
Theorem rerun_refines_script_run inp tr :
  exists tr' out, script_run inp tr = (tr', Ok out) /\
    rerun inp tr = (mk_st tr' (mk_page (Some the_config) (page_of out) None), Ok tt).
Proof.
  destruct (script_run_shape inp tr) as (calls & out & E & _).
  exists (tr ++ calls), out. split; [exact E | apply rerun_spec, E].
Qed.

(** C31: on a triggered run the answer goes into the slot reserved in the
    "AI Response" column (element 10, in the second column of element 6),
    while the preview is rendered in the main area below the button, not
    next to the answer. *)
Theorem rerun_response_placement inp tr :
  triggered inp = true ->
  exists r, snd (get_ollama_response (text_input inp) (uploaded inp) tr) = Ok r /\
    nth 10 (blocks (st_page (fst (rerun inp tr)))) (Main, EmptyB) =
      (Column 6 1, MarkdownB (lit "**Response:** " ++ fst r)) /\
    firstn (length (display_extra (snd r)))
      (skipn 12 (blocks (st_page (fst (rerun inp tr))))) =
      map (fun e => (Main, of_element e)) (display_extra (snd r)).
Proof.
  intros Ht. destruct (gor_run_shape (text_input inp) (uploaded inp) tr) as (calls & r & E & _).
  exists r. rewrite E. split; [reflexivity|].
  assert (Hs : script_run inp tr = (tr ++ CallList :: calls,
            Ok (Markdown (lit "**Response:** " ++ fst r) :: display_extra (snd r)))).
  { unfold script_run, bind. rewrite Ht, E. reflexivity. }
  rewrite (rerun_spec _ _ _ _ Hs). cbn [fst st_page blocks page_of].
  split; [reflexivity|].
  cbn [head_blocks app skipn]. rewrite firstn_app, length_map, Nat.sub_diag, firstn_O, app_nil_r.
  apply firstn_all2. rewrite length_map. lia.
Qed.
End Theorems.

(** ** Examples *)

Import Normalizer.Examples Gateway.Examples.

Lemma rerun_response_placement_witness :
  exists r, snd (@get_ollama_response toy_images toy_pdfs echo_server default_prompt
                   (Some a_pdf) []) = Ok r /\
    nth 10 (blocks (st_page (fst (@rerun toy_images toy_pdfs echo_server
                                    (live_input (Some a_pdf)) [])))) (Main, EmptyB) =
      (Column 6 1, MarkdownB (lit "**Response:** " ++ fst r)) /\
    firstn (length (display_extra (snd r)))
      (skipn 12 (blocks (st_page (fst (@rerun toy_images toy_pdfs echo_server
                                         (live_input (Some a_pdf)) []))))) =
      map (fun e => (Main, of_element e)) (display_extra (snd r)).
Proof.
  apply (@rerun_response_placement toy_images toy_pdfs echo_server (live_input (Some a_pdf)) []).
  reflexivity.
Defined.

End Page.
