(* ===== verification/Session.v ===== *)
(** A session: the script's widgets across reruns ([src/app.py], lines 36,
    44, 47 and 82).

    Streamlit keeps the value of each widget between runs and re-runs the
    script after every interaction.  The checkbox (line 36), the text area
    (line 44) and the uploader (line 47) hold their values; the button
    (line 82) is [True] only in the run its click starts.  The uploader only
    takes files whose name ends with one of the extensions of
    [type=["jpg", "png", "jpeg", "pdf"]], compared without case; a refused
    file changes nothing.

    [handle] is one interaction: update the widgets, then run
    [App.script_run] on the server history; the screen shows the elements
    of the last run ([response_container] is created anew by every run).
    [reachable] is the set of states a session reaches from the first page
    load, and the theorems are invariants proved by induction on it and
    facts about single interactions. *)

From Stdlib Require Import String List ZArith Lia Bool.
From S2P Require Import Prelude Normalizer Gateway App Page.
Import ListNotations.
Import Normalizer Gateway App Page.

Module Session.

(** ** The uploader's extension filter (line 47) *)

(** [str.lower()] on the ASCII letters. *)
Definition ascii_lower (c : Z) : Z :=
  if ((65 <=? c) && (c <=? 90))%Z then (c + 32)%Z else c.

Definition py_lower (s : pystr) : pystr := map ascii_lower s.

(** [s.endswith(suffix)] *)
Definition ends_with (s suffix : pystr) : bool :=
  Nat.leb (length suffix) (length s) &&
  pystr_eqb (skipn (length s - length suffix) s) suffix.

Definition dot : pystr := lit ".".

(** ["." + t if not t.startswith(".") else t], then [.lower()]. *)
Definition normalize_type (t : pystr) : pystr :=
  py_lower (if pystr_eqb (firstn 1 t) dot then t else dot ++ t).

(** The pairs of extensions Streamlit treats as one. *)
Definition type_pairs : list (pystr * pystr) :=
  [(lit ".jpg", lit ".jpeg"); (lit ".mpg", lit ".mpeg"); (lit ".mp4", lit ".mpeg4");
   (lit ".tif", lit ".tiff"); (lit ".htm", lit ".html")].

Definition mem (x : pystr) (l : list pystr) : bool := existsb (pystr_eqb x) l.

(** Add the partner of each listed extension of a pair. *)
Definition add_pairs (ts : list pystr) : list pystr :=
  fold_left (fun acc '(x, y) =>
    if mem x acc && negb (mem y acc) then acc ++ [y]
    else if mem y acc && negb (mem x acc) then acc ++ [x]
    else acc) type_pairs ts.

Definition allowed_types (types : list pystr) : list pystr :=
  add_pairs (map normalize_type types).

(** The file is accepted when its lower-cased name ends with an allowed
    extension. *)
Definition file_allowed (types : list pystr) (name : pystr) : bool :=
  existsb (ends_with (py_lower name)) (allowed_types types).

(** ** Widgets and interactions *)

(** The values the widgets hold between runs. *)
Record widgets := mk_widgets {
  w_live : bool;                    (** the checkbox, line 36 *)
  w_text : pystr;                   (** the text area, line 44 *)
  w_file : option uploaded_file     (** the uploader, line 47 *)
}.

(** The first page load shows the defaults of lines 36, 44 and 47. *)
Definition initial_widgets : widgets := mk_widgets default_live_preview default_prompt None.

(** One interaction of the user. *)
Inductive event :=
| Click                        (** press "Get Response" *)
| ToggleLive                   (** tick or untick "Enable Live Preview" *)
| EditPrompt (s : pystr)       (** commit a new text in the text area *)
| Upload (f : uploaded_file)   (** choose a file in the uploader *)
| RemoveUpload.                (** remove the uploaded file *)

(** The widgets after the interaction and whether the button is pressed
    in the rerun, or [None] when there is no rerun. *)
Definition apply_event (e : event) (w : widgets) : option (widgets * bool) :=
  match e with
  | Click => Some (w, true)
  | ToggleLive => Some (mk_widgets (negb (w_live w)) (w_text w) (w_file w), false)
  | EditPrompt s =>
      if pystr_eqb s (w_text w) then None
      else Some (mk_widgets (w_live w) s (w_file w), false)
  | Upload f =>
      if file_allowed uploader_types (uf_name f)
      then Some (mk_widgets (w_live w) (w_text w) (Some f), false)
      else None
  | RemoveUpload =>
      match w_file w with
      | None => None
      | Some _ => Some (mk_widgets (w_live w) (w_text w) None, false)
      end
  end.

(** The widget values one run reads. *)
Definition input_of (w : widgets) (clicked : bool) : ui_input :=
  mk_input clicked (w_live w) (w_text w) (w_file w).

Section Session.
Context `{IL : ImageLib} `{PL : PdfLib} `{SV : OllamaServer}.

(** The state of a session: the widgets, the calls the server has seen,
    and what the last run rendered (or the exception it raised). *)
Record session_state := mk_sess {
  widgets_of : widgets;
  history : trace;
  screen : result (list element)
}.

(** A rerun with the widgets [w]. *)
Definition run_with (w : widgets) (clicked : bool) (tr : trace) : session_state :=
  let (tr', r) := script_run (input_of w clicked) tr in mk_sess w tr' r.

(** The first page load. *)
Definition start (tr : trace) : session_state := run_with initial_widgets false tr.

(** One interaction. *)
Definition handle (e : event) (s : session_state) : session_state :=
  match apply_event e (widgets_of s) with
  | None => s
  | Some (w, clicked) => run_with w clicked (history s)
  end.

(** The states a session reaches from a page load against history [tr0]. *)
Inductive reachable (tr0 : trace) : session_state -> Prop :=
| reach_start : reachable tr0 (start tr0)
| reach_handle s e : reachable tr0 s -> reachable tr0 (handle e s).
End Session.

(** Interactions one after the other. *)
Definition run_events `{IL : ImageLib} `{PL : PdfLib} `{SV : OllamaServer}
    (es : list event) (s : session_state) : session_state :=
  fold_left (fun s e => handle e s) es s.

Definition is_click (e : event) : bool := match e with Click => true | _ => false end.

(** ** Lemmas *)

Section Lemmas.
Context `{IL : ImageLib} `{PL : PdfLib} `{SV : OllamaServer}.

Lemma run_with_widgets w c tr : widgets_of (run_with w c tr) = w.
Proof. unfold run_with. destruct (script_run _ _). reflexivity. Qed.

(** A triggered rerun renders an answer first. *)
Lemma run_with_answers w c tr :
  triggered (input_of w c) = true ->
  exists resp rest, screen (run_with w c tr) = Ok (Markdown (lit "**Response:** " ++ resp) :: rest).
Proof.
  intros H. unfold run_with, script_run. rewrite H.
  destruct (gor_run_shape (text_input (input_of w c)) (uploaded (input_of w c)) tr)
    as (calls & r & E & _).
  unfold bind. rewrite E. eexists _, _. reflexivity.
Qed.

(** A rerun that is not triggered calls nothing and renders nothing. *)
Lemma run_with_quiet w tr :
  triggered (input_of w false) = false -> run_with w false tr = mk_sess w tr (Ok []).
Proof. intros H. unfold run_with, script_run. rewrite H. reflexivity. Qed.

Lemma run_with_probes w c tr :
  count_probes (history (run_with w c tr)) =
  (count_probes tr + if triggered (input_of w c) then 1 else 0)%nat.
Proof.
  unfold run_with. destruct (script_run_shape (input_of w c) tr) as (calls & out & -> & H).
  cbn [history]. rewrite count_probes_app, H. reflexivity.
Qed.

(** Case analysis of [apply_event] on its tests, without computing them. *)
Ltac event_cases He :=
  unfold apply_event in He; cbv beta iota in He;
  repeat match type of He with
  | context [if ?b then _ else _] => destruct b eqn:?
  | context [match ?o with Some _ => _ | None => _ end] => destruct o eqn:?
  end;
  try discriminate He; injection He as <- <-.

(** Without [ToggleLive] the checkbox keeps its value. *)
Lemma apply_event_live e w w' c :
  e <> ToggleLive -> apply_event e w = Some (w', c) -> w_live w' = w_live w /\ c = is_click e.
Proof. intros Hn He. destruct e; [| congruence | ..]; event_cases He; auto. Qed.

(** With live preview off, an interaction probes the server exactly when
    it is a click. *)
Lemma handle_probes_live_off e s :
  w_live (widgets_of s) = false -> e <> ToggleLive ->
  w_live (widgets_of (handle e s)) = false /\
  count_probes (history (handle e s)) = (count_probes (history s) + if is_click e then 1 else 0)%nat.
Proof.
  intros Hl Hn. unfold handle. destruct (apply_event e (widgets_of s)) as [[w' c]|] eqn:He.
  - destruct (apply_event_live e _ _ _ Hn He) as [Hw ->].
    rewrite run_with_widgets, run_with_probes. split; [congruence|].
    unfold triggered, input_of. cbn [button_clicked live_preview]. rewrite Hw, Hl.
    destruct (is_click e); reflexivity.
  - split; [exact Hl|]. destruct e; [discriminate | ..]; cbn [is_click]; lia.
Qed.
(** The first page load calls nothing and shows no answer: live preview is
    off by default and the button is not pressed. *)
Lemma start_quiet tr0 : start tr0 = mk_sess initial_widgets tr0 (Ok []).
Proof. apply run_with_quiet. reflexivity. Qed.

Lemma run_events_cons e es s : run_events (e :: es) s = run_events es (handle e s).
Proof. reflexivity. Qed.
End Lemmas.

(** ** Theorems *)

Section Theorems.
Context `{IL : ImageLib} `{PL : PdfLib} `{SV : OllamaServer}.

(** C32: with live preview on and a non-empty prompt, every state a
    session reaches shows an answer: every interaction reruns the script,
    and each such rerun calls the gateway and renders its result first. *)
Theorem live_preview_keeps_answer tr0 s :
  reachable tr0 s -> w_live (widgets_of s) = true -> w_text (widgets_of s) <> [] ->
  exists resp rest, screen s = Ok (Markdown (lit "**Response:** " ++ resp) :: rest).
Proof.
  induction 1 as [|s e _ IH]; intros Hl Ht.
  - rewrite start_quiet in Hl. discriminate.
  - unfold handle in *. destruct (apply_event e (widgets_of s)) as [[w c]|]; [|auto].
    rewrite run_with_widgets in Hl, Ht. apply run_with_answers.
    unfold triggered, input_of. cbn [button_clicked live_preview text_input]. rewrite Hl.
    destruct (w_text w); [congruence | apply orb_true_r].
Qed.

(** C33: an interaction that reruns the script without the button and
    with live preview off sends nothing to the server and erases the
    answer on screen (the rerun creates an empty [response_container]). *)
Theorem quiet_rerun_clears_answer e s w' :
  apply_event e (widgets_of s) = Some (w', false) -> w_live w' = false ->
  handle e s = mk_sess w' (history s) (Ok []).
Proof.
  intros He Hl. unfold handle. rewrite He. apply run_with_quiet.
  unfold triggered, input_of. cbn [button_clicked live_preview]. rewrite Hl. reflexivity.
Qed.

(** C34: ticking "Enable Live Preview" on a fresh page sends the default
    prompt ["Tell me about this content..."] to the model at once, without
    a click, and shows its answer. *)
Theorem enable_live_sends_default_prompt tr0 u :
  srv_list tr0 = Ok u ->
  exists out, handle ToggleLive (start tr0) =
    mk_sess (mk_widgets true default_prompt None)
      (tr0 ++ [CallList; CallGenerate llava default_prompt]) (Ok out).
Proof.
  intros Hl. rewrite start_quiet. unfold handle.
  change (apply_event ToggleLive _) with (Some (mk_widgets true default_prompt None, false)).
  cbv beta iota. unfold run_with, script_run.
  change (triggered _) with true. cbv beta iota. unfold bind.
  cbn [input_of text_input uploaded w_text w_file].
  rewrite gor_text_eq. cbv zeta. cbn [history]. rewrite Hl.
  destruct (srv_generate _ _ _); eexists; rewrite <- app_assoc; reflexivity.
Qed.

(** C35: while live preview stays off, the server is probed exactly once
    per click, whatever else the user does. *)
Theorem live_off_probes_per_click es s :
  w_live (widgets_of s) = false -> ~ In ToggleLive es ->
  count_probes (history (run_events es s)) =
    (count_probes (history s) + length (filter is_click es))%nat.
Proof.
  revert s. induction es as [|e es IH]; intros s Hl Hn; [cbn; lia|].
  rewrite run_events_cons.
  destruct (handle_probes_live_off e s Hl) as [Hl' Hc]; [intros ->; apply Hn; left; reflexivity|].
  rewrite IH, Hc by (auto; intros H; apply Hn; right; exact H).
  cbn [filter length]. destruct (is_click e); cbn [length]; lia.
Qed.
End Theorems.

(** ** Examples *)

Import Normalizer.Examples Gateway.Examples.

Definition why_prompt : pystr := lit "Why?".

Lemma live_preview_keeps_answer_witness :
  exists resp rest,
    screen (@handle toy_images toy_pdfs echo_server ToggleLive
              (@start toy_images toy_pdfs echo_server [])) =
    Ok (Markdown (lit "**Response:** " ++ resp) :: rest).
Proof.
  apply (@live_preview_keeps_answer toy_images toy_pdfs echo_server []).
  - apply reach_handle, reach_start.
  - reflexivity.
  - discriminate.
Defined.

Lemma quiet_rerun_clears_answer_witness :
  @handle toy_images toy_pdfs echo_server (EditPrompt why_prompt)
    (@start toy_images toy_pdfs echo_server []) =
  mk_sess (mk_widgets false why_prompt None) [] (Ok []).
Proof.
  apply (@quiet_rerun_clears_answer toy_images toy_pdfs echo_server).
  - vm_compute. reflexivity.
  - reflexivity.
Defined.

Lemma enable_live_sends_default_prompt_witness :
  exists out, @handle toy_images toy_pdfs echo_server ToggleLive
                (@start toy_images toy_pdfs echo_server []) =
    mk_sess (mk_widgets true default_prompt None)
      ([] ++ [CallList; CallGenerate llava default_prompt]) (Ok out).
Proof. apply (@enable_live_sends_default_prompt toy_images toy_pdfs echo_server [] tt). reflexivity. Defined.

Lemma live_off_probes_per_click_witness :
  count_probes (history (@run_events toy_images toy_pdfs echo_server
                           [Click; EditPrompt why_prompt; Upload a_pdf; Click]
                           (@start toy_images toy_pdfs echo_server []))) =
  (count_probes (history (@start toy_images toy_pdfs echo_server [])) +
   length (filter is_click [Click; EditPrompt why_prompt; Upload a_pdf; Click]))%nat.
Proof.
  apply (@live_off_probes_per_click toy_images toy_pdfs echo_server).
  - reflexivity.
  - cbn. intuition discriminate.
Defined.

End Session.
